(** * Irrigation skill (lambda_function.py): session tracking and event logging

    A shallow embedding of the three intent handlers of the Alexa skill:
    [ActivarRegadorIntentHandler.handle], [DesactivarRegadorIntentHandler.handle]
    and [ConsultarHumedadIntentHandler.handle], together with
    [insertar_datos_riego] and the module-level variable [start_time_global].

    Modelling conventions.
    - Python floats ([time.time()], durations, volumes) are idealised as exact
      rationals [Q]; [round(x, 2)] gives a nearest hundredth, kept as a
      number of hundredths in [Z]. Where the exact value lies half way
      between two hundredths, the float the code rounds lies a little above
      or below it, and the result is decided by the float arithmetic
      (1.5 s gives 0.03 minutes, 4.5 s gives 0.07): which neighbour is
      taken there is an input of the invocation, see [Request].
    - The handlers run in a small state-and-exception monad [Py] over the
      process state [World]; a raised exception keeps the mutations made
      before it, as in Python.
    - [time.time()] reads an oracle [clock]: the [n]-th call of the process
      returns [clock n].
    - The outcome of the calls to the outside (device shadow, MQTT publish,
      DynamoDB) during one invocation is given by a [Request] record.
    - [time.strftime("%Y-%m-%dT%H:%M:%SZ", time.gmtime(t))] is determined by
      the whole second [floor t]; it is kept as [ISO (floor t)].
    - An event id is kept structured: the interpolated time value and the
      thing name of the f-string [f"{...}-{thing_name}"].
    - [table] is the log of the writes the table received: the items given
      to the [put_item] calls that returned, oldest first. What the table
      keeps of them is [holds (table w)]: a write replaces the item that has
      the same key. [calls] is the sequence of the calls made to the device
      gateway, whether they returned or raised.
    - The reported [humedad] is an integer, or absent. *)

From Stdlib Require Import ZArith QArith Qround Qabs Lqa String List Bool Lia.
Import ListNotations.

Local Open Scope Z_scope.

(** ** Python values and builtins *)

Module Python.

(** [float], idealised. *)
Definition float := Q.

(** [int(x)] on a float: truncation toward zero. *)
Definition int (x : float) : Z := Z.quot (Qnum x) (Zpos (Qden x)).

(** Rounding to a nearest integer; [up] is the neighbour taken when [x] lies
    half way between two integers. *)
Definition round_nearest (up : bool) (x : Q) : Z :=
  let f := Qfloor x in
  match (x - inject_Z f ?= 1 # 2)%Q with
  | Lt => f
  | Gt => f + 1
  | Eq => if up then f + 1 else f
  end.

(** [round(x, 2)], as a number of hundredths. The code rounds the float it
    has computed for [x]; when the exact [x] lies half way between two
    hundredths that float lies above or below it (or is [x] itself, and is
    rounded to even), and [up] tells which hundredth results. *)
Definition round2 (up : bool) (x : float) : Z := round_nearest up (x * 100)%Q.

(** Truth value of [start_time_global], which holds [None] or a float:
    [None] and [0.0] are false. *)
Definition truthy (v : option float) : bool :=
  match v with
  | None => false
  | Some t => negb (Qeq_bool t 0)
  end.

(** [time.strftime("%Y-%m-%dT%H:%M:%SZ", time.gmtime(t))]: the UTC second
    that contains [t]. *)
Inductive iso8601 : Type := ISO (epoch_second : Z).

Definition strftime_gmtime (t : float) : iso8601 := ISO (Qfloor t).

End Python.

Import Python.

Arguments truthy : simpl never.
Arguments round2 : simpl never.
Arguments int : simpl never.
Arguments strftime_gmtime : simpl never.

(** ** Data *)

(** A number with two fractional digits, [Decimal(str(round(x, 2)))]: its
    value in hundredths. *)
Definition Decimal := Z.

(** The desired pump state of the shadow payload
    [{"state": {"desired": {"bomba": ...}}}]. *)
Inductive bomba : Type := ON | OFF.

(** The time value interpolated in an event id. [f"{int(end_time)}"] prints
    an integer, [f"{time.time()}"] prints a float: the two never print the
    same text, a float always shows a fractional part or an exponent. *)
Inductive stamp : Type :=
| IntStamp (seconds : Z)
| FloatStamp (t : float).

(** [f"{stamp}-{thing_name}"]. *)
Record evento : Type := Evento { id_stamp : stamp; id_thing : string }.

(** The item written by [insertar_datos_riego]. *)
Record Item : Type := {
  ID : evento;
  StartTime : iso8601;
  EndTime : option iso8601;
  Duration : option Decimal;
  WaterVolume : option Decimal;
  SoilMoisture : option Z;
  ThingID : string;
  SystemStatus : string;
  RequestTime : iso8601;
  UserID : string
}.

(** Calls made to the outside, in the order they are issued. *)
Inductive call : Type :=
| update_thing_shadow (desired : bomba)
| publish_solicitud_humedad
| get_thing_shadow
| sleep (seconds : Z).

(** [estado] of the moisture answer: "húmedo" or "seco". *)
Inductive estado : Type := humedo | seco.

(** The sentences the handlers speak. *)
Inductive speak_output : Type :=
| RegadorActivado
    (* 'El regador ha sido activado.' *)
| ProblemaActivar
    (* 'Hubo un problema al activar el regador, por favor intenta nuevamente.' *)
| RegadorDesactivado (litros : Decimal)
    (* f'El regador ha sido desactivado. Se utilizaron aproximadamente
        {round(water_volume, 2)} litros de agua.' *)
| RegadorNoActivado
    (* 'El regador no estaba activado.' *)
| ProblemaDesactivar
    (* 'Hubo un problema al desactivar el regador, por favor intenta nuevamente.' *)
| NoPuedoObtenerHumedad
    (* "No puedo obtener la humedad en este momento." *)
| NivelDeHumedad (humedad : Z) (e : estado)
    (* f"El nivel de humedad es {humedad}. El suelo está {estado}." *)
| ProblemaHumedad
    (* "Hubo un problema al obtener la humedad. Por favor, intenta nuevamente." *).

(** The process state: the global [start_time_global], the number of
    [time.time()] calls made so far, the calls issued to the outside and the
    log of the items written to the DynamoDB table. *)
Record World : Type := {
  start_time_global : option float;
  ticks : nat;
  calls : list call;
  table : list Item
}.

(** What the process state does not fix during one invocation: the answers
    of the outside, and the neighbour the float arithmetic gives where a
    duration or a volume lies half way between two hundredths. *)
Record Request : Type := {
  user_id : string;
      (* handler_input.request_envelope.context.system.user.user_id *)
  update_ok : bool;
      (* iot_client.update_thing_shadow returns (true) or raises (false) *)
  publish_ok : bool;
      (* iot_client.publish returns or raises *)
  reported : option (option Z);
      (* iot_client.get_thing_shadow and the JSON decoding: [None] when one of
         them raises, else [json_state["state"]["reported"].get("humedad", None)],
         an integer sensor value *)
  put_item_ok : bool;
      (* table.put_item returns or raises *)
  duration_tie_up : bool;
      (* round(duration, 2) at a tie: the upper hundredth (true) or the
         lower *)
  volume_tie_up : bool
      (* round(water_volume, 2) at a tie *)
}.

(** ** The monad of handler bodies *)

Inductive outcome (A : Type) : Type :=
| Returns (a : A)
| Raises.
Arguments Returns {A} a.
Arguments Raises {A}.

Definition Py (A : Type) : Type := World -> outcome A * World.

Definition ret {A} (a : A) : Py A := fun w => (Returns a, w).

Definition bind {A B} (m : Py A) (k : A -> Py B) : Py B :=
  fun w => match m w with
           | (Returns a, w') => k a w'
           | (Raises, w') => (Raises, w')
           end.

Definition raise {A} : Py A := fun w => (Raises, w).

(** [try: body except Exception: handler]. *)
Definition try_except {A} (body handler : Py A) : Py A :=
  fun w => match body w with
           | (Returns a, w') => (Returns a, w')
           | (Raises, w') => handler w'
           end.

Declare Scope py_scope.
Delimit Scope py_scope with py.
Notation "x <- m ;; k" := (bind m (fun x => k))
  (at level 61, m at next level, right associativity) : py_scope.
Notation "m ;; k" := (bind m (fun _ => k))
  (at level 61, right associativity) : py_scope.
Local Open Scope py_scope.

Definition get_start_time_global : Py (option float) :=
  fun w => (Returns (start_time_global w), w).

Definition set_start_time_global (v : option float) : Py unit :=
  fun w => (Returns tt,
            {| start_time_global := v; ticks := ticks w;
               calls := calls w; table := table w |}).

Definition issue (c : call) (ok : bool) : Py unit :=
  fun w =>
    let w' := {| start_time_global := start_time_global w; ticks := ticks w;
                 calls := calls w ++ [c]; table := table w |} in
    if ok then (Returns tt, w') else (Raises, w').

Definition time_sleep (seconds : Z) : Py unit := issue (sleep seconds) true.

(** The value and final state of a handler body that does not raise. *)
Definition run {A} (m : Py A) (w : World) : option A * World :=
  match m w with
  | (Returns a, w') => (Some a, w')
  | (Raises, w') => (None, w')
  end.

Definition exec {A} (m : Py A) (w : World) : World := snd (m w).

Definition value {A} (m : Py A) (w : World) : option A := fst (run m w).

(** ** Concrete worlds, requests and clocks used by the examples *)

(** A freshly loaded process: [start_time_global = None], nothing issued,
    nothing stored. *)
Definition fresh : World :=
  {| start_time_global := None; ticks := 0; calls := []; table := [] |}.

(** A process whose global holds [t]. *)
Definition started (t : float) : World :=
  {| start_time_global := Some t; ticks := 0; calls := []; table := [] |}.

(** An invocation in which every outside call succeeds and the shadow
    reports [h]. *)
Definition answering (h : option Z) : Request :=
  {| user_id := "amzn1.ask.account.A"; update_ok := true; publish_ok := true;
     reported := Some h; put_item_ok := true;
     duration_tie_up := true; volume_tie_up := false |}.

(** An invocation in which the shadow update raises. *)
Definition update_failing : Request :=
  {| user_id := "amzn1.ask.account.A"; update_ok := false; publish_ok := true;
     reported := Some (Some 1000); put_item_ok := true;
     duration_tie_up := true; volume_tie_up := false |}.

(** A clock that gives the readings of [l] in turn (and [0] after them). *)
Definition readings (l : list float) : nat -> float := fun n => nth n l 0%Q.

(** ** Loading the module: the Parameter Store *)

Module ParameterStore.





End ParameterStore.

(** A clock that starts at the second [t0] and gives one second more at
    every reading. *)
Definition seconds_from (t0 : Z) : nat -> float :=
  fun n => inject_Z (t0 + Z.of_nat n).

(** ** The skill *)

Section Skill.

(** [thing_name], read from the Parameter Store when the module loads. *)
Variable thing_name : string.

(** The readings of [time.time()], in call order. *)
Variable clock : nat -> float.

Definition FLOW_RATE : Q := 5.

Definition time_time : Py float :=
  fun w => (Returns (clock (ticks w)),
            {| start_time_global := start_time_global w; ticks := S (ticks w);
               calls := calls w; table := table w |}).

(** [table.put_item(Item=item)]: the write is added to the log [table]. *)
Definition put_item (rq : Request) (item : Item) : Py unit :=
  fun w =>
    if put_item_ok rq
    then (Returns tt,
          {| start_time_global := start_time_global w; ticks := ticks w;
             calls := calls w; table := table w ++ [item] |})
    else (Raises, w).

(** [insertar_datos_riego]: builds the item and stores it; an exception of
    the store is logged and swallowed. *)
Definition insertar_datos_riego (rq : Request)
    (evento_id : evento) (start_time : iso8601) (end_time : option iso8601)
    (duration water_volume : option Decimal) (soil_moisture : option Z)
    (thing_id system_status : string) (request_time : iso8601)
    (user : string) : Py unit :=
  try_except
    (let item := {| ID := evento_id;
                    StartTime := start_time;
                    EndTime := end_time;
                    Duration := duration;
                    WaterVolume := water_volume;
                    SoilMoisture := soil_moisture;
                    ThingID := thing_id;
                    SystemStatus := system_status;
                    RequestTime := request_time;
                    UserID := user |} in
     put_item rq item)
    (ret tt).

(** [response = iot_client.get_thing_shadow(...)], the JSON decoding and
    [json_state["state"]["reported"].get("humedad", None)]. *)
Definition get_humedad (rq : Request) : Py (option Z) :=
  match reported rq with
  | Some h => issue get_thing_shadow true ;; ret h
  | None => issue get_thing_shadow false ;; raise
  end.

(** [if start_time_global: ... else: ...], the first branch with the float
    the global holds. *)
Definition if_start_time_global {A} (then_ : float -> Py A) (else_ : Py A)
  : Py A :=
  v <- get_start_time_global ;;
  match v with
  | Some t => if truthy v then then_ t else else_
  | None => else_
  end.

(** [ActivarRegadorIntentHandler.handle]. *)
Definition ActivarRegador_handle (rq : Request) : Py speak_output :=
  now <- time_time ;;
  set_start_time_global (Some now) ;;
  try_except
    (issue (update_thing_shadow ON) (update_ok rq) ;;
     ret RegadorActivado)
    (ret ProblemaActivar).

(** [DesactivarRegadorIntentHandler.handle]. *)
Definition DesactivarRegador_handle (rq : Request) : Py speak_output :=
  end_time <- time_time ;;
  try_except
    (issue (update_thing_shadow OFF) (update_ok rq) ;;
     if_start_time_global
       (fun start =>
          let duration := ((end_time - start) / 60)%Q in
          let water_volume := (duration * FLOW_RATE)%Q in
          let evento_id := Evento (IntStamp (int end_time)) thing_name in
          time_sleep 1 ;;
          humedad <- get_humedad rq ;;
          insertar_datos_riego rq
            evento_id
            (strftime_gmtime start)
            (Some (strftime_gmtime end_time))
            (Some (round2 (duration_tie_up rq) duration))
            (Some (round2 (volume_tie_up rq) water_volume))
            humedad
            thing_name
            "Desactivado"
            (strftime_gmtime end_time)
            (user_id rq) ;;
          set_start_time_global None ;;
          ret (RegadorDesactivado (round2 (volume_tie_up rq) water_volume)))
       (ret RegadorNoActivado))
    (ret ProblemaDesactivar).

(** [ConsultarHumedadIntentHandler.handle]. *)
Definition ConsultarHumedad_handle (rq : Request) : Py speak_output :=
  try_except
    (issue publish_solicitud_humedad (publish_ok rq) ;;
     time_sleep 1 ;;
     humedad <- get_humedad rq ;;
     match humedad with
     | None => ret NoPuedoObtenerHumedad
     | Some humedad =>
         let estado := if humedad <? 1300 then humedo else seco in
         let speak := NivelDeHumedad humedad estado in
         t_id <- time_time ;;
         let evento_id := Evento (FloatStamp t_id) thing_name in
         t_request <- time_time ;;
         let request_time := strftime_gmtime t_request in
         if humedad >? 1300 then
           t_id' <- time_time ;;
           let evento_id := Evento (FloatStamp t_id') thing_name in
           start <- time_time ;;
           set_start_time_global (Some start) ;;
           insertar_datos_riego rq
             evento_id (strftime_gmtime start) None None None
             (Some humedad) thing_name "Consulta Humedad" request_time
             (user_id rq) ;;
           ret speak
         else
           if_start_time_global
             (fun start =>
                end_time <- time_time ;;
                let duration := ((end_time - start) / 60)%Q in
                let water_volume := (duration * FLOW_RATE)%Q in
                insertar_datos_riego rq
                  evento_id
                  (strftime_gmtime start)
                  (Some (strftime_gmtime end_time))
                  (Some (round2 (duration_tie_up rq) duration))
                  (Some (round2 (volume_tie_up rq) water_volume))
                  (Some humedad) thing_name "Consulta Humedad" request_time
                  (user_id rq) ;;
                ret speak)
             (start <- time_time ;;
              set_start_time_global (Some start) ;;
              insertar_datos_riego rq
                evento_id (strftime_gmtime start) None None None
                (Some humedad) thing_name "Consulta Humedad" request_time
                (user_id rq) ;;
              ret speak)
     end)
    (ret ProblemaHumedad).

(** The spoken classification of a reading: line 160,
    ["húmedo" if humedad < 1300 else "seco"]. *)
Definition estado_de (humedad : Z) : estado :=
  if humedad <? 1300 then humedo else seco.

(** The item of an event without an end (lines 169-180 and 202-213). *)
Definition item_sin_fin (rq : Request) (t_id start t_request : float)
    (humedad : Z) : Item :=
  {| ID := Evento (FloatStamp t_id) thing_name;
     StartTime := strftime_gmtime start;
     EndTime := None;
     Duration := None;
     WaterVolume := None;
     SoilMoisture := Some humedad;
     ThingID := thing_name;
     SystemStatus := "Consulta Humedad";
     RequestTime := strftime_gmtime t_request;
     UserID := user_id rq |}.

(** The volume as the specification words it: the duration already rounded
    to two places, times the flow rate, rounded again. The handlers do not
    use it; it is compared with what they store. *)
Definition volume_from_rounded_duration (rq : Request)
    (start end_time : float) : Decimal :=
  let duration := ((end_time - start) / 60)%Q in
  round2 (volume_tie_up rq)
    (inject_Z (round2 (duration_tie_up rq) duration) / 100 * FLOW_RATE)%Q.

(** ** Requests, responses and the dispatch of the skill *)

(** The request of the envelope, as the [can_handle] methods look at it
    through [get_request_type] and [get_intent_name]: a launch request, an
    intent request with the name of its intent, or a session-ended request
    (which stands for the requests that are neither). *)
Inductive envelope : Type :=
| LaunchRequest
| IntentRequest (intent_name : string)
| SessionEndedRequest.

Definition get_request_type (ev : envelope) : string :=
  match ev with
  | LaunchRequest => "LaunchRequest"
  | IntentRequest _ => "IntentRequest"
  | SessionEndedRequest => "SessionEndedRequest"
  end.

(** [get_intent_name]: a [TypeError] when the request is no intent
    request. *)
Definition get_intent_name (ev : envelope) : outcome string :=
  match ev with
  | IntentRequest name => Returns name
  | _ => Raises
  end.

(** The texts of the skill: a sentence of the three intent handlers, the
    welcome of the launch handler, or the apology of the error handler. *)
Inductive frase : Type :=
| Dice (s : speak_output)
| Bienvenido
    (* the welcome the launch handler prepares:
       'Bienvenido al sistema de riego. Puedes decir "activar el regador",
        "desactivar el regador", o "consultar humedad".' *)
| LoSiento
    (* 'Lo siento, hubo un problema. Por favor intenta nuevamente.' *).

(** The response a handler returns, [response_builder.speak(...).response]:
    what is spoken, and the reprompt if one has been set (no path of the
    skill sets one). *)
Record Response : Type := { speak : frase; reprompt : option frase }.

Record RequestHandler : Type := {
  can_handle : envelope -> outcome bool;
  handle : Request -> Py Response
}.

(** [get_intent_name(handler_input) == name]. *)
Definition intent_is (name : string) (ev : envelope) : outcome bool :=
  match get_intent_name ev with
  | Returns n => Returns (String.eqb n name)
  | Raises => Raises
  end.

(** [return handler_input.response_builder.speak(speak_output).response]. *)
Definition speak_response (body : Py speak_output) : Py Response :=
  s <- body ;; ret {| speak := Dice s; reprompt := None |}.

(** [LaunchRequestHandler]. Its [handle] (line 76) asks the response builder
    for [speak(speak_output)] and then for [.reprompt(speak_output)]; the
    response factory of the SDK has no attribute [reprompt] (a reprompt is
    set with [ask]), so the lookup raises an [AttributeError] and no
    response is built. *)
Definition LaunchRequestHandler : RequestHandler :=
  {| can_handle :=
       fun ev => Returns (String.eqb (get_request_type ev) "LaunchRequest");
     handle := fun _ => raise |}.

Definition ActivarRegadorIntentHandler : RequestHandler :=
  {| can_handle := intent_is "ActivarRegadorIntent";
     handle := fun rq => speak_response (ActivarRegador_handle rq) |}.

Definition DesactivarRegadorIntentHandler : RequestHandler :=
  {| can_handle := intent_is "DesactivarRegadorIntent";
     handle := fun rq => speak_response (DesactivarRegador_handle rq) |}.

Definition ConsultarHumedadIntentHandler : RequestHandler :=
  {| can_handle := intent_is "ConsultarHumedadIntent";
     handle := fun rq => speak_response (ConsultarHumedad_handle rq) |}.

(** [ErrorHandler]: [can_handle] is [True] for every exception. *)
Definition ErrorHandler_handle : Py Response :=
  ret {| speak := LoSiento; reprompt := None |}.

(** The handlers of the three intents. *)
Definition intent_handlers : list RequestHandler :=
  [ActivarRegadorIntentHandler; DesactivarRegadorIntentHandler;
   ConsultarHumedadIntentHandler].

(** The handlers in the order [sb.add_request_handler] registers them. *)
Definition request_handlers : list RequestHandler :=
  [LaunchRequestHandler; ActivarRegadorIntentHandler;
   DesactivarRegadorIntentHandler; ConsultarHumedadIntentHandler].

(** The dispatch of the skill builder: the first registered handler whose
    [can_handle] is true handles the request; with none, or when a
    [can_handle] raises, an exception goes to the exception handler. *)
Fixpoint dispatch (hs : list RequestHandler) (ev : envelope) (rq : Request)
  : Py Response :=
  match hs with
  | [] => raise
  | h :: rest =>
      match can_handle h ev with
      | Returns true => handle h rq
      | Returns false => dispatch rest ev rq
      | Raises => raise
      end
  end.

(** [lambda_handler = sb.lambda_handler()]. *)
Definition lambda_handler (ev : envelope) (rq : Request) : Py Response :=
  try_except (dispatch request_handlers ev rq) ErrorHandler_handle.

(** The process after a sequence of invocations. *)
Fixpoint serve (l : list (envelope * Request)) (w : World) : World :=
  match l with
  | [] => w
  | (ev, rq) :: rest => serve rest (exec (lambda_handler ev rq) w)
  end.

(** ** One invocation, branch by branch *)

(** [w] after an invocation that left [start] in the global, read the clock
    [reads] times, issued [issued] and stored [stored]. *)
Definition after (w : World) (start : option float) (reads : nat)
    (issued : list call) (stored : list Item) : World :=
  {| start_time_global := start;
     ticks := reads + ticks w;
     calls := calls w ++ issued;
     table := table w ++ stored |}.

(** The item of an event with an end (lines 117-128 and 187-198). *)
Definition item_con_fin (rq : Request) (id : stamp)
    (start end_time t_request : float) (humedad : option Z)
    (status : string) : Item :=
  let duration := ((end_time - start) / 60)%Q in
  {| ID := Evento id thing_name;
     StartTime := strftime_gmtime start;
     EndTime := Some (strftime_gmtime end_time);
     Duration := Some (round2 (duration_tie_up rq) duration);
     WaterVolume := Some (round2 (volume_tie_up rq) (duration * FLOW_RATE)%Q);
     SoilMoisture := humedad;
     ThingID := thing_name;
     SystemStatus := status;
     RequestTime := strftime_gmtime t_request;
     UserID := user_id rq |}.

(** What [insertar_datos_riego] leaves in the table. *)
Definition stored_if (rq : Request) (item : Item) : list Item :=
  if put_item_ok rq then [item] else [].

Definition says (s : speak_output) : Response :=
  {| speak := Dice s; reprompt := None |}.

Definition shadow_read : list call := [sleep 1; get_thing_shadow].

(** The branches of one invocation: the request, the response and the
    process state it ends in. *)
Inductive paso (rq : Request) (w : World)
  : envelope -> Response -> World -> Prop :=
| paso_launch :
    paso rq w LaunchRequest {| speak := LoSiento; reprompt := None |} w
| paso_session_ended :
    paso rq w SessionEndedRequest {| speak := LoSiento; reprompt := None |} w
| paso_other_intent name :
    name <> "ActivarRegadorIntent"%string ->
    name <> "DesactivarRegadorIntent"%string ->
    name <> "ConsultarHumedadIntent"%string ->
    paso rq w (IntentRequest name) {| speak := LoSiento; reprompt := None |} w
| paso_activar :
    paso rq w (IntentRequest "ActivarRegadorIntent")
      (says (if update_ok rq then RegadorActivado else ProblemaActivar))
      (after w (Some (clock (ticks w))) 1 [update_thing_shadow ON] [])
| paso_desactivar_update_raises :
    update_ok rq = false ->
    paso rq w (IntentRequest "DesactivarRegadorIntent")
      (says ProblemaDesactivar)
      (after w (start_time_global w) 1 [update_thing_shadow OFF] [])
| paso_desactivar_not_started :
    update_ok rq = true ->
    truthy (start_time_global w) = false ->
    paso rq w (IntentRequest "DesactivarRegadorIntent")
      (says RegadorNoActivado)
      (after w (start_time_global w) 1 [update_thing_shadow OFF] [])
| paso_desactivar_read_raises start :
    update_ok rq = true ->
    start_time_global w = Some start -> truthy (Some start) = true ->
    reported rq = None ->
    paso rq w (IntentRequest "DesactivarRegadorIntent")
      (says ProblemaDesactivar)
      (after w (Some start) 1 (update_thing_shadow OFF :: shadow_read) [])
| paso_desactivar_closes start humedad :
    update_ok rq = true ->
    start_time_global w = Some start -> truthy (Some start) = true ->
    reported rq = Some humedad ->
    let end_time := clock (ticks w) in
    paso rq w (IntentRequest "DesactivarRegadorIntent")
      (says (RegadorDesactivado
               (round2 (volume_tie_up rq)
                  ((end_time - start) / 60 * FLOW_RATE)%Q)))
      (after w None 1 (update_thing_shadow OFF :: shadow_read)
         (stored_if rq
            (item_con_fin rq (IntStamp (int end_time)) start end_time
               end_time humedad "Desactivado")))
| paso_consultar_publish_raises :
    publish_ok rq = false ->
    paso rq w (IntentRequest "ConsultarHumedadIntent")
      (says ProblemaHumedad)
      (after w (start_time_global w) 0 [publish_solicitud_humedad] [])
| paso_consultar_read_raises :
    publish_ok rq = true -> reported rq = None ->
    paso rq w (IntentRequest "ConsultarHumedadIntent")
      (says ProblemaHumedad)
      (after w (start_time_global w) 0
         (publish_solicitud_humedad :: shadow_read) [])
| paso_consultar_no_humedad :
    publish_ok rq = true -> reported rq = Some None ->
    paso rq w (IntentRequest "ConsultarHumedadIntent")
      (says NoPuedoObtenerHumedad)
      (after w (start_time_global w) 0
         (publish_solicitud_humedad :: shadow_read) [])
| paso_consultar_seco humedad :
    publish_ok rq = true -> reported rq = Some (Some humedad) ->
    1300 < humedad ->
    let n := ticks w in
    paso rq w (IntentRequest "ConsultarHumedadIntent")
      (says (NivelDeHumedad humedad (estado_de humedad)))
      (after w (Some (clock (3 + n))) 4
         (publish_solicitud_humedad :: shadow_read)
         (stored_if rq
            (item_sin_fin rq (clock (2 + n)) (clock (3 + n)) (clock (1 + n))
               humedad)))
| paso_consultar_humedo_not_started humedad :
    publish_ok rq = true -> reported rq = Some (Some humedad) ->
    humedad <= 1300 ->
    truthy (start_time_global w) = false ->
    let n := ticks w in
    paso rq w (IntentRequest "ConsultarHumedadIntent")
      (says (NivelDeHumedad humedad (estado_de humedad)))
      (after w (Some (clock (2 + n))) 3
         (publish_solicitud_humedad :: shadow_read)
         (stored_if rq
            (item_sin_fin rq (clock n) (clock (2 + n)) (clock (1 + n))
               humedad)))
| paso_consultar_humedo_started humedad start :
    publish_ok rq = true -> reported rq = Some (Some humedad) ->
    humedad <= 1300 ->
    start_time_global w = Some start -> truthy (Some start) = true ->
    let n := ticks w in
    paso rq w (IntentRequest "ConsultarHumedadIntent")
      (says (NivelDeHumedad humedad (estado_de humedad)))
      (after w (Some start) 3
         (publish_solicitud_humedad :: shadow_read)
         (stored_if rq
            (item_con_fin rq (FloatStamp (clock n)) start (clock (2 + n))
               (clock (1 + n)) (Some humedad) "Consulta Humedad"))).

(** ** Predicates on requests, calls and records *)

(** The handler's [can_handle] returns [True] on the request. *)
Definition accepts (ev : envelope) (h : RequestHandler) : bool :=
  match can_handle h ev with
  | Returns true => true
  | _ => false
  end.

(** The requests whose handler calls [insertar_datos_riego]. *)
Definition may_store (ev : envelope) : bool :=
  accepts ev DesactivarRegadorIntentHandler ||
  accepts ev ConsultarHumedadIntentHandler.

(** [rq] with another answer of the store. *)
Definition with_put_item_ok (rq : Request) (ok : bool) : Request :=
  {| user_id := user_id rq;
     update_ok := update_ok rq;
     publish_ok := publish_ok rq;
     reported := reported rq;
     put_item_ok := ok;
     duration_tie_up := duration_tie_up rq;
     volume_tie_up := volume_tie_up rq |}.

(** Every [get_thing_shadow] comes right after a [sleep 1]; [prev] is the
    call before the list. *)
Fixpoint settled_from (prev : option call) (cs : list call) : bool :=
  match cs with
  | [] => true
  | c :: rest =>
      match c, prev with
      | get_thing_shadow, Some (sleep 1) => settled_from (Some c) rest
      | get_thing_shadow, _ => false
      | _, _ => settled_from (Some c) rest
      end
  end.

Definition settled (cs : list call) : bool := settled_from None cs.

Fixpoint last_call (prev : option call) (cs : list call) : option call :=
  match cs with
  | [] => prev
  | c :: rest => last_call (Some c) rest
  end.

Definition is_some {A} (o : option A) : bool :=
  match o with Some _ => true | None => false end.

(** A record of this thing, either without end, duration and volume (a
    moisture query, with its reading), or with all three (a deactivation, or
    a moisture query with its reading). *)
Definition well_formed (item : Item) : bool :=
  String.eqb (ThingID item) thing_name &&
  String.eqb (id_thing (ID item)) thing_name &&
  match EndTime item, Duration item, WaterVolume item with
  | None, None, None =>
      String.eqb (SystemStatus item) "Consulta Humedad" &&
      is_some (SoilMoisture item)
  | Some _, Some _, Some _ =>
      String.eqb (SystemStatus item) "Desactivado" ||
      String.eqb (SystemStatus item) "Consulta Humedad" &&
      is_some (SoilMoisture item)
  | _, _, _ => false
  end.

(** Duration and volume, when present, are not negative. *)
Definition non_negative (item : Item) : bool :=
  match Duration item with Some d => 0 <=? d | None => true end &&
  match WaterVolume item with Some v => 0 <=? v | None => true end.

(** The volume is within three hundredths of five times the duration. *)
Definition volume_tracks_duration (item : Item) : bool :=
  match Duration item, WaterVolume item with
  | Some d, Some v => Z.abs (v - 5 * d) <=? 3
  | _, _ => true
  end.

(** Two event ids are the same text: the same kind of stamp with the same
    value, and the same thing name. *)
Definition same_id (a b : evento) : bool :=
  match id_stamp a, id_stamp b with
  | IntStamp x, IntStamp y => x =? y
  | FloatStamp x, FloatStamp y => Qeq_bool x y
  | _, _ => false
  end && String.eqb (id_thing a) (id_thing b).

(** Modelled from the spec: the key schema of the table, which is declared
    outside the source; section 4.3 has the store keyed by the event id.
    A write replaces the item that has the same [ID], or adds the item. *)
Definition replace_item (held : list Item) (item : Item) : list Item :=
  filter (fun i => negb (same_id (ID i) (ID item))) held ++ [item].

(** What the table holds after the writes of a log. *)
Definition holds (log : list Item) : list Item :=
  fold_left replace_item log [].

(** The clock never goes back. *)
Definition monotone : Prop :=
  forall n m, (n <= m)%nat -> (clock n <= clock m)%Q.

(** The global holds nothing, or a reading the clock has already given. *)
Definition past_reading (w : World) : Prop :=
  match start_time_global w with
  | None => True
  | Some t => exists k, (k < ticks w)%nat /\ t = clock k
  end.

(** The call is the shadow update with the pump at [b]. *)
Definition is_update (b : bomba) (c : call) : bool :=
  match c, b with
  | update_thing_shadow ON, ON => true
  | update_thing_shadow OFF, OFF => true
  | _, _ => false
  end.

(** The handler that sets the pump to [b]. *)
Definition pump_handler (b : bomba) : RequestHandler :=
  match b with
  | ON => ActivarRegadorIntentHandler
  | OFF => DesactivarRegadorIntentHandler
  end.

(** ** Evaluation of the handlers, branch by branch *)

Ltac py_unfold :=
  unfold exec, value, run,
    ConsultarHumedad_handle, DesactivarRegador_handle, ActivarRegador_handle,
    insertar_datos_riego, put_item, get_humedad, if_start_time_global,
    time_time, time_sleep, issue, try_except, bind, ret, raise,
    get_start_time_global, set_start_time_global.

Ltac py_eval :=
  py_unfold; simpl;
  repeat match goal with
         | H : _ = _ |- _ => rewrite H; simpl
         end;
  rewrite <- ?app_assoc; simpl.

Lemma Activar_eval (rq : Request) (w : World) :
  ActivarRegador_handle rq w =
    (Returns (if update_ok rq then RegadorActivado else ProblemaActivar),
     {| start_time_global := Some (clock (ticks w));
        ticks := S (ticks w);
        calls := calls w ++ [update_thing_shadow ON];
        table := table w |}).
Proof. py_eval. destruct (update_ok rq); reflexivity. Qed.

Lemma Desactivar_update_raises (rq : Request) (w : World) :
  update_ok rq = false ->
  DesactivarRegador_handle rq w =
    (Returns ProblemaDesactivar,
     {| start_time_global := start_time_global w;
        ticks := S (ticks w);
        calls := calls w ++ [update_thing_shadow OFF];
        table := table w |}).
Proof. intros Hup. py_eval. reflexivity. Qed.

Lemma Desactivar_not_started (rq : Request) (w : World) :
  update_ok rq = true ->
  truthy (start_time_global w) = false ->
  DesactivarRegador_handle rq w =
    (Returns RegadorNoActivado,
     {| start_time_global := start_time_global w;
        ticks := S (ticks w);
        calls := calls w ++ [update_thing_shadow OFF];
        table := table w |}).
Proof.
  intros Hup Hst. py_unfold. simpl. rewrite Hup. simpl.
  destruct (start_time_global w) as [t|]; [rewrite Hst|]; reflexivity.
Qed.

Lemma Desactivar_read_raises (rq : Request) (w : World) (start : float) :
  update_ok rq = true ->
  start_time_global w = Some start ->
  truthy (Some start) = true ->
  reported rq = None ->
  DesactivarRegador_handle rq w =
    (Returns ProblemaDesactivar,
     {| start_time_global := Some start;
        ticks := S (ticks w);
        calls := calls w ++ [update_thing_shadow OFF; sleep 1; get_thing_shadow];
        table := table w |}).
Proof. intros Hup Hst Htr Hrep. py_eval. reflexivity. Qed.

Lemma Desactivar_closes (rq : Request) (w : World) (start : float)
    (humedad : option Z) :
  update_ok rq = true ->
  start_time_global w = Some start ->
  truthy (Some start) = true ->
  reported rq = Some humedad ->
  let end_time := clock (ticks w) in
  let duration := ((end_time - start) / 60)%Q in
  let water_volume := (duration * FLOW_RATE)%Q in
  DesactivarRegador_handle rq w =
    (Returns (RegadorDesactivado (round2 (volume_tie_up rq) water_volume)),
     {| start_time_global := None;
        ticks := S (ticks w);
        calls := calls w ++ [update_thing_shadow OFF; sleep 1; get_thing_shadow];
        table :=
          table w ++
          (if put_item_ok rq
           then [{| ID := Evento (IntStamp (int end_time)) thing_name;
                    StartTime := strftime_gmtime start;
                    EndTime := Some (strftime_gmtime end_time);
                    Duration := Some (round2 (duration_tie_up rq) duration);
                    WaterVolume :=
                      Some (round2 (volume_tie_up rq) water_volume);
                    SoilMoisture := humedad;
                    ThingID := thing_name;
                    SystemStatus := "Desactivado";
                    RequestTime := strftime_gmtime end_time;
                    UserID := user_id rq |}]
           else []) |}).
Proof.
  intros Hup Hst Htr Hrep. py_eval.
  destruct (put_item_ok rq); simpl; rewrite ?app_nil_r; reflexivity.
Qed.

Lemma Consultar_publish_raises (rq : Request) (w : World) :
  publish_ok rq = false ->
  ConsultarHumedad_handle rq w =
    (Returns ProblemaHumedad,
     {| start_time_global := start_time_global w;
        ticks := ticks w;
        calls := calls w ++ [publish_solicitud_humedad];
        table := table w |}).
Proof. intros Hpub. py_eval. reflexivity. Qed.

Lemma Consultar_read_raises (rq : Request) (w : World) :
  publish_ok rq = true ->
  reported rq = None ->
  ConsultarHumedad_handle rq w =
    (Returns ProblemaHumedad,
     {| start_time_global := start_time_global w;
        ticks := ticks w;
        calls := calls w ++ [publish_solicitud_humedad; sleep 1; get_thing_shadow];
        table := table w |}).
Proof. intros Hpub Hrep. py_eval. reflexivity. Qed.

Lemma Consultar_no_humedad (rq : Request) (w : World) :
  publish_ok rq = true ->
  reported rq = Some None ->
  ConsultarHumedad_handle rq w =
    (Returns NoPuedoObtenerHumedad,
     {| start_time_global := start_time_global w;
        ticks := ticks w;
        calls := calls w ++ [publish_solicitud_humedad; sleep 1; get_thing_shadow];
        table := table w |}).
Proof. intros Hpub Hrep. py_eval. reflexivity. Qed.

Lemma Consultar_seco (rq : Request) (w : World) (humedad : Z) :
  publish_ok rq = true ->
  reported rq = Some (Some humedad) ->
  1300 < humedad ->
  let n := ticks w in
  ConsultarHumedad_handle rq w =
    (Returns (NivelDeHumedad humedad (estado_de humedad)),
     {| start_time_global := Some (clock (3 + n));
        ticks := (4 + n)%nat;
        calls := calls w ++ [publish_solicitud_humedad; sleep 1; get_thing_shadow];
        table :=
          table w ++
          (if put_item_ok rq
           then [item_sin_fin rq (clock (2 + n)) (clock (3 + n))
                   (clock (1 + n)) humedad]
           else []) |}).
Proof.
  intros Hpub Hrep Hdry n. apply Z.gtb_lt in Hdry. py_eval.
  destruct (put_item_ok rq); simpl; rewrite ?app_nil_r; reflexivity.
Qed.

Lemma Consultar_humedo_not_started (rq : Request) (w : World) (humedad : Z) :
  publish_ok rq = true ->
  reported rq = Some (Some humedad) ->
  humedad <= 1300 ->
  truthy (start_time_global w) = false ->
  let n := ticks w in
  ConsultarHumedad_handle rq w =
    (Returns (NivelDeHumedad humedad (estado_de humedad)),
     {| start_time_global := Some (clock (2 + n));
        ticks := (3 + n)%nat;
        calls := calls w ++ [publish_solicitud_humedad; sleep 1; get_thing_shadow];
        table :=
          table w ++
          (if put_item_ok rq
           then [item_sin_fin rq (clock n) (clock (2 + n)) (clock (1 + n))
                   humedad]
           else []) |}).
Proof.
  intros Hpub Hrep Hwet Hst n.
  assert (Hgt : (humedad >? 1300) = false) by (rewrite Z.gtb_ltb; apply Z.ltb_ge; exact Hwet).
  py_unfold. simpl. rewrite Hpub. simpl. rewrite Hrep. simpl. rewrite Hgt. simpl.
  rewrite <- !app_assoc. simpl.
  destruct (start_time_global w) as [t|]; [rewrite Hst|]; simpl;
    destruct (put_item_ok rq); simpl; rewrite ?app_nil_r; reflexivity.
Qed.

Lemma Consultar_humedo_started (rq : Request) (w : World) (humedad : Z)
    (start : float) :
  publish_ok rq = true ->
  reported rq = Some (Some humedad) ->
  humedad <= 1300 ->
  start_time_global w = Some start ->
  truthy (Some start) = true ->
  let n := ticks w in
  let end_time := clock (2 + n) in
  let duration := ((end_time - start) / 60)%Q in
  let water_volume := (duration * FLOW_RATE)%Q in
  ConsultarHumedad_handle rq w =
    (Returns (NivelDeHumedad humedad (estado_de humedad)),
     {| start_time_global := Some start;
        ticks := (3 + n)%nat;
        calls := calls w ++ [publish_solicitud_humedad; sleep 1; get_thing_shadow];
        table :=
          table w ++
          (if put_item_ok rq
           then [{| ID := Evento (FloatStamp (clock n)) thing_name;
                    StartTime := strftime_gmtime start;
                    EndTime := Some (strftime_gmtime end_time);
                    Duration := Some (round2 (duration_tie_up rq) duration);
                    WaterVolume :=
                      Some (round2 (volume_tie_up rq) water_volume);
                    SoilMoisture := Some humedad;
                    ThingID := thing_name;
                    SystemStatus := "Consulta Humedad";
                    RequestTime := strftime_gmtime (clock (1 + n));
                    UserID := user_id rq |}]
           else []) |}).
Proof.
  intros Hpub Hrep Hwet Hst Htr n.
  assert (Hgt : (humedad >? 1300) = false) by (rewrite Z.gtb_ltb; apply Z.ltb_ge; exact Hwet).
  clear Hwet. py_eval.
  destruct (put_item_ok rq); simpl; rewrite ?app_nil_r; reflexivity.
Qed.

(** ** The builtins *)

Lemma round_nearest_comp (up : bool) (x y : Q) :
  (x == y)%Q -> round_nearest up x = round_nearest up y.
Proof.
  intros E. unfold round_nearest.
  rewrite (Qfloor_comp _ _ E).
  assert (C : ((x - inject_Z (Qfloor y) ?= 1 # 2) =
               (y - inject_Z (Qfloor y) ?= 1 # 2))%Q)
    by (apply Qcompare_comp; [rewrite E|]; reflexivity).
  rewrite C. reflexivity.
Qed.

Lemma round2_comp (up : bool) (x y : float) :
  (x == y)%Q -> round2 up x = round2 up y.
Proof.
  intros E. unfold round2. apply round_nearest_comp. rewrite E. reflexivity.
Qed.

(** [round_nearest] gives a nearest integer, whatever it does at a tie. *)
Lemma round_nearest_nearest (up : bool) (x : Q) :
  (Qabs (x - inject_Z (round_nearest up x)) <= 1 # 2)%Q.
Proof.
  unfold round_nearest.
  pose proof (Qfloor_le x) as Hlo.
  pose proof (Qlt_floor x) as Hhi.
  rewrite inject_Z_plus in Hhi. change (inject_Z 1) with 1%Q in Hhi.
  apply Qabs_Qle_condition.
  destruct (Qcompare_spec (x - inject_Z (Qfloor x)) (1 # 2)) as [E|L|G].
  - destruct up;
      rewrite ?inject_Z_plus; change (inject_Z 1) with 1%Q; split; lra.
  - split; lra.
  - rewrite inject_Z_plus. change (inject_Z 1) with 1%Q. split; lra.
Qed.

(** [round2 up x] is within half a hundredth of [x]. *)
Lemma round2_nearest (up : bool) (x : float) :
  (Qabs (x * 100 - inject_Z (round2 up x)) <= 1 # 2)%Q.
Proof. apply round_nearest_nearest. Qed.

(** Off the ties the neighbour chosen at a tie does not matter: a whole
    number of hundredths is its own rounding. *)
Lemma round2_exact (up : bool) (x : float) (z : Z) :
  (x == inject_Z z / 100)%Q -> round2 up x = z.
Proof.
  intros E. pose proof (round2_nearest up x) as H.
  apply Qabs_Qle_condition in H.
  assert (E' : (x * 100 == inject_Z z)%Q) by (rewrite E; field).
  rewrite E' in H. destruct H as [H1 H2].
  assert (L1 : (inject_Z (round2 up x) <= inject_Z z + (1 # 2))%Q) by lra.
  assert (L2 : (inject_Z z - (1 # 2) <= inject_Z (round2 up x))%Q) by lra.
  assert (A : round2 up x < z + 1).
  { apply Z.lt_nge. intros C. rewrite Zle_Qle, inject_Z_plus in C.
    change (inject_Z 1) with 1%Q in C. lra. }
  assert (B : z - 1 < round2 up x).
  { apply Z.lt_nge. intros C. rewrite Zle_Qle in C.
    unfold Z.sub in C. rewrite inject_Z_plus, inject_Z_opp in C.
    change (inject_Z 1) with 1%Q in C. lra. }
  lia.
Qed.

(** From the epoch on, [int] and the second of [gmtime] agree. *)
Lemma int_floor (t : float) : (0 <= t)%Q -> int t = Qfloor t.
Proof.
  destruct t as [n d]. unfold Qle, int, Qfloor. simpl. intros H.
  apply Z.quot_div_nonneg; lia.
Qed.

Lemma truthy_Some (t : float) : truthy (Some t) = true <-> ~ (t == 0)%Q.
Proof.
  unfold truthy. rewrite negb_true_iff. split.
  - intros H E. apply Qeq_bool_iff in E. congruence.
  - intros H. destruct (Qeq_bool t 0) eqn:E; [|reflexivity].
    apply Qeq_bool_iff in E. contradiction.
Qed.

Lemma estado_de_humedo (humedad : Z) :
  estado_de humedad = humedo <-> humedad < 1300.
Proof.
  unfold estado_de. destruct (Z.ltb_spec humedad 1300); split;
    intros; try reflexivity; try assumption; try discriminate; lia.
Qed.

Lemma estado_de_seco (humedad : Z) :
  estado_de humedad = seco <-> 1300 <= humedad.
Proof.
  unfold estado_de. destruct (Z.ltb_spec humedad 1300); split;
    intros; try reflexivity; try assumption; try discriminate; lia.
Qed.

(** ** Failures of the transport *)

(** A deactivation that ends in the apology leaves [start_time_global] as
    it found it, whichever call raised. *)
Lemma Desactivar_problema_keeps_start (rq : Request) (w : World) :
  value (DesactivarRegador_handle rq) w = Some ProblemaDesactivar ->
  start_time_global (exec (DesactivarRegador_handle rq) w) =
  start_time_global w.
Proof.
  unfold value, run, exec.
  destruct (update_ok rq) eqn:Hup;
    [|rewrite Desactivar_update_raises by assumption; reflexivity].
  destruct (truthy (start_time_global w)) eqn:Htr;
    [|rewrite Desactivar_not_started by assumption; reflexivity].
  destruct (start_time_global w) as [start|] eqn:Hst; [|discriminate].
  destruct (reported rq) as [hum|] eqn:Hrep.
  - rewrite (Desactivar_closes rq w start hum) by assumption.
    simpl. discriminate.
  - rewrite (Desactivar_read_raises rq w start) by assumption.
    reflexivity.
Qed.

(** A moisture query that ends in the apology leaves [start_time_global]
    and the table as it found them. *)
Lemma Consultar_problema_keeps_start (rq : Request) (w : World) :
  value (ConsultarHumedad_handle rq) w = Some ProblemaHumedad ->
  start_time_global (exec (ConsultarHumedad_handle rq) w) =
    start_time_global w /\
  table (exec (ConsultarHumedad_handle rq) w) = table w.
Proof.
  unfold value, run, exec.
  destruct (publish_ok rq) eqn:Hpub;
    [|rewrite Consultar_publish_raises by assumption; split; reflexivity].
  destruct (reported rq) as [[h|]|] eqn:Hrep.
  - destruct (Z_lt_le_dec 1300 h) as [Hdry|Hwet].
    + rewrite (Consultar_seco rq w h) by assumption. simpl. discriminate.
    + destruct (truthy (start_time_global w)) eqn:Htr.
      * destruct (start_time_global w) as [start|] eqn:Hst; [|discriminate].
        rewrite (Consultar_humedo_started rq w h start) by assumption.
        simpl. discriminate.
      * rewrite (Consultar_humedo_not_started rq w h) by assumption.
        simpl. discriminate.
  - rewrite Consultar_no_humedad by assumption. simpl. discriminate.
  - rewrite Consultar_read_raises by assumption. split; reflexivity.
Qed.

(** A moisture reading at or below 1300 that finds a start time stores a
    record with an end but leaves the start time in place. *)
Lemma Consultar_humedo_started_keeps_start (rq : Request) (w : World)
    (humedad : Z) (start : float) :
  publish_ok rq = true ->
  reported rq = Some (Some humedad) ->
  humedad <= 1300 ->
  start_time_global w = Some start ->
  truthy (Some start) = true ->
  start_time_global (exec (ConsultarHumedad_handle rq) w) = Some start.
Proof.
  intros Hpub Hrep Hwet Hst Htr. unfold exec.
  rewrite (Consultar_humedo_started rq w humedad start) by assumption.
  reflexivity.
Qed.

(** ** The handlers always answer *)

(** No exception leaves a handler body: each one ends in a sentence. *)
Lemma Activar_answers (rq : Request) (w : World) :
  exists s, value (ActivarRegador_handle rq) w = Some s.
Proof.
  unfold value, run. rewrite Activar_eval. eexists. reflexivity.
Qed.

Lemma Desactivar_answers (rq : Request) (w : World) :
  exists s, value (DesactivarRegador_handle rq) w = Some s.
Proof.
  unfold value, run.
  destruct (update_ok rq) eqn:Hup;
    [|rewrite Desactivar_update_raises by assumption; eexists; reflexivity].
  destruct (truthy (start_time_global w)) eqn:Htr;
    [|rewrite Desactivar_not_started by assumption; eexists; reflexivity].
  destruct (start_time_global w) as [start|] eqn:Hst; [|discriminate].
  destruct (reported rq) as [hum|] eqn:Hrep.
  - rewrite (Desactivar_closes rq w start hum) by assumption.
    eexists; reflexivity.
  - rewrite (Desactivar_read_raises rq w start) by assumption.
    eexists; reflexivity.
Qed.

Lemma Consultar_answers (rq : Request) (w : World) :
  exists s, value (ConsultarHumedad_handle rq) w = Some s.
Proof.
  unfold value, run.
  destruct (publish_ok rq) eqn:Hpub;
    [|rewrite Consultar_publish_raises by assumption; eexists; reflexivity].
  destruct (reported rq) as [[h|]|] eqn:Hrep.
  - destruct (Z_lt_le_dec 1300 h) as [Hdry|Hwet].
    + rewrite (Consultar_seco rq w h) by assumption. eexists; reflexivity.
    + destruct (truthy (start_time_global w)) eqn:Htr.
      * destruct (start_time_global w) as [start|] eqn:Hst; [|discriminate].
        rewrite (Consultar_humedo_started rq w h start) by assumption.
        eexists; reflexivity.
      * rewrite (Consultar_humedo_not_started rq w h) by assumption.
        eexists; reflexivity.
  - rewrite Consultar_no_humedad by assumption. eexists; reflexivity.
  - rewrite Consultar_read_raises by assumption. eexists; reflexivity.
Qed.

(** ** The claims that hold for every invocation *)

(** C2, as amended. A moisture query whose transport calls succeed and that
    reads a value above 1300 sets the start time to a fresh clock reading
    and stores one record without end, duration or volume, whether or not
    a start time was already held; one that reads a value at or below 1300
    and finds no start time stores one record without end, duration or
    volume (no closing record) and sets the start time. *)
Theorem C2_consultar_records_without_end (rq : Request) (w : World)
    (humedad : Z) :
  publish_ok rq = true ->
  reported rq = Some (Some humedad) ->
  let w' := exec (ConsultarHumedad_handle rq) w in
  let n := ticks w in
  (1300 < humedad ->
     start_time_global w' = Some (clock (3 + n)) /\
     table w' =
       table w ++
       (if put_item_ok rq
        then [item_sin_fin rq (clock (2 + n)) (clock (3 + n)) (clock (1 + n))
                humedad]
        else [])) /\
  (humedad <= 1300 -> truthy (start_time_global w) = false ->
     start_time_global w' = Some (clock (2 + n)) /\
     table w' =
       table w ++
       (if put_item_ok rq
        then [item_sin_fin rq (clock n) (clock (2 + n)) (clock (1 + n))
                humedad]
        else [])).
Proof.
  intros Hpub Hrep w' n. subst w'. unfold exec. split.
  - intros Hdry. rewrite (Consultar_seco rq w humedad) by assumption.
    split; reflexivity.
  - intros Hwet Hst.
    rewrite (Consultar_humedo_not_started rq w humedad) by assumption.
    split; reflexivity.
Qed.

(** C3, as amended. Every closing record, of a voice deactivation or of a
    moisture query, carries as duration [(end - start) / 60] rounded to two
    places and as volume the unrounded [(end - start) / 60 * FLOW_RATE]
    rounded to two places: each is a hundredth nearest to the exact value
    (where the exact value lies half way between two hundredths, the one
    the float arithmetic of the invocation gives). A close 120 seconds after
    the start gives 2.00 and 10.00. *)
Theorem C3_closing_record_duration_volume (rq : Request) (w : World)
    (start : float) :
  start_time_global w = Some start ->
  truthy (Some start) = true ->
  put_item_ok rq = true ->
  (forall humedad, update_ok rq = true -> reported rq = Some humedad ->
     let end_time := clock (ticks w) in
     let duration := ((end_time - start) / 60)%Q in
     exists item d v,
       table (exec (DesactivarRegador_handle rq) w) = table w ++ [item] /\
       Duration item = Some d /\
       WaterVolume item = Some v /\
       d = round2 (duration_tie_up rq) duration /\
       v = round2 (volume_tie_up rq) (duration * FLOW_RATE)%Q /\
       (Qabs (duration * 100 - inject_Z d) <= 1 # 2)%Q /\
       (Qabs (duration * FLOW_RATE * 100 - inject_Z v) <= 1 # 2)%Q /\
       ((end_time - start == 120)%Q -> d = 200 /\ v = 1000)) /\
  (forall humedad, publish_ok rq = true ->
     reported rq = Some (Some humedad) -> humedad <= 1300 ->
     let end_time := clock (2 + ticks w) in
     let duration := ((end_time - start) / 60)%Q in
     exists item d v,
       table (exec (ConsultarHumedad_handle rq) w) = table w ++ [item] /\
       Duration item = Some d /\
       WaterVolume item = Some v /\
       d = round2 (duration_tie_up rq) duration /\
       v = round2 (volume_tie_up rq) (duration * FLOW_RATE)%Q /\
       (Qabs (duration * 100 - inject_Z d) <= 1 # 2)%Q /\
       (Qabs (duration * FLOW_RATE * 100 - inject_Z v) <= 1 # 2)%Q /\
       ((end_time - start == 120)%Q -> d = 200 /\ v = 1000)).
Proof.
  intros Hst Htr Hput.
  assert (two_minutes : forall (up_d up_v : bool) (d : Q), (d == 120)%Q ->
            round2 up_d (d / 60)%Q = 200 /\
            round2 up_v (d / 60 * FLOW_RATE)%Q = 1000).
  { intros up_d up_v d E. split; apply round2_exact; rewrite E; reflexivity. }
  split.
  - intros humedad Hup Hrep end_time duration. unfold exec.
    rewrite (Desactivar_closes rq w start humedad) by assumption.
    cbn [snd table]. rewrite Hput. do 3 eexists.
    split; [reflexivity|]. cbn [Duration WaterVolume].
    split; [reflexivity|]. split; [reflexivity|].
    split; [reflexivity|]. split; [reflexivity|].
    split; [apply round2_nearest|]. split; [apply round2_nearest|].
    apply two_minutes.
  - intros humedad Hpub Hrep Hwet end_time duration. unfold exec.
    rewrite (Consultar_humedo_started rq w humedad start) by assumption.
    cbn [snd table]. rewrite Hput. do 3 eexists.
    split; [reflexivity|]. cbn [Duration WaterVolume].
    split; [reflexivity|]. split; [reflexivity|].
    split; [reflexivity|]. split; [reflexivity|].
    split; [apply round2_nearest|]. split; [apply round2_nearest|].
    apply two_minutes.
Qed.

(** C6, as amended. A deactivation that finds no start time stores no
    record and leaves the start time as it is; it answers "was not active"
    when the shadow update succeeds, and the deactivation apology when the
    shadow update raises. *)
Theorem C6_desactivar_without_session (rq : Request) (w : World) :
  truthy (start_time_global w) = false ->
  let w' := exec (DesactivarRegador_handle rq) w in
  table w' = table w /\
  start_time_global w' = start_time_global w /\
  truthy (start_time_global w') = false /\
  value (DesactivarRegador_handle rq) w =
    Some (if update_ok rq then RegadorNoActivado else ProblemaDesactivar).
Proof.
  intros Hst w'. subst w'. unfold exec, value, run.
  destruct (update_ok rq) eqn:Hup.
  - rewrite Desactivar_not_started by assumption. simpl. auto.
  - rewrite Desactivar_update_raises by assumption. simpl. auto.
Qed.

(** C7, as amended. The record of a deactivation has as id the end
    timestamp truncated to an integer, joined to the thing name, and from
    the epoch on that integer is the second of its end time. The record of
    a moisture query has as id an untruncated clock reading joined to the
    thing name: the first reading of the invocation when the value is at
    or below 1300, the third when it is above; for a closing record of a
    moisture query the end time comes from a later reading (the third)
    than the id (the first). *)
Theorem C7_event_ids (rq : Request) (w : World) :
  put_item_ok rq = true ->
  let n := ticks w in
  (forall start humedad,
     update_ok rq = true -> start_time_global w = Some start ->
     truthy (Some start) = true -> reported rq = Some humedad ->
     let end_time := clock n in
     exists item,
       table (exec (DesactivarRegador_handle rq) w) = table w ++ [item] /\
       ID item = Evento (IntStamp (int end_time)) thing_name /\
       EndTime item = Some (ISO (Qfloor end_time)) /\
       ((0 <= end_time)%Q -> int end_time = Qfloor end_time)) /\
  (forall humedad,
     publish_ok rq = true -> reported rq = Some (Some humedad) ->
     exists item,
       table (exec (ConsultarHumedad_handle rq) w) = table w ++ [item] /\
       ID item =
         Evento (FloatStamp (clock ((if humedad >? 1300 then 2 else 0) + n)))
           thing_name /\
       (humedad <= 1300 -> truthy (start_time_global w) = true ->
          EndTime item = Some (ISO (Qfloor (clock (2 + n)))))).
Proof.
  intros Hput n. split.
  - intros start humedad Hup Hst Htr Hrep end_time. unfold exec.
    rewrite (Desactivar_closes rq w start humedad) by assumption.
    simpl. rewrite Hput. eexists. split; [reflexivity|]. simpl.
    split; [reflexivity|]. split; [reflexivity|]. apply int_floor.
  - intros humedad Hpub Hrep. unfold exec.
    destruct (Z_lt_le_dec 1300 humedad) as [Hdry|Hwet].
    + rewrite (Consultar_seco rq w humedad) by assumption.
      simpl. rewrite Hput. eexists. split; [reflexivity|]. simpl.
      apply Z.gtb_lt in Hdry. rewrite Hdry. split; [reflexivity|].
      apply Z.gtb_lt in Hdry. lia.
    + assert (Hgt : (humedad >? 1300) = false)
        by (rewrite Z.gtb_ltb; apply Z.ltb_ge; exact Hwet).
      rewrite Hgt.
      destruct (truthy (start_time_global w)) eqn:Htr.
      * destruct (start_time_global w) as [start|] eqn:Hst; [|discriminate].
        rewrite (Consultar_humedo_started rq w humedad start)
          by assumption.
        simpl. rewrite Hput. eexists. split; [reflexivity|]. simpl.
        split; reflexivity.
      * rewrite (Consultar_humedo_not_started rq w humedad) by assumption.
        simpl. rewrite Hput. eexists. split; [reflexivity|]. simpl.
        split; [reflexivity|]. discriminate.
Qed.


(** C9. Every deactivation issues the shadow update with the pump OFF as
    its first call to the outside, whatever [start_time_global] holds; when
    no start time is held and the answer is "was not active", that update
    is the one call that was issued. *)
Theorem C9_desactivar_always_sends_off (rq : Request) (w : World) :
  let w' := exec (DesactivarRegador_handle rq) w in
  (exists rest, calls w' = calls w ++ update_thing_shadow OFF :: rest) /\
  (truthy (start_time_global w) = false ->
   value (DesactivarRegador_handle rq) w = Some RegadorNoActivado ->
   calls w' = calls w ++ [update_thing_shadow OFF] /\
   table w' = table w).
Proof.
  intros w'. subst w'. unfold exec, value, run. split.
  - destruct (update_ok rq) eqn:Hup;
      [|rewrite Desactivar_update_raises by assumption; eexists; reflexivity].
    destruct (truthy (start_time_global w)) eqn:Htr;
      [|rewrite Desactivar_not_started by assumption; eexists; reflexivity].
    destruct (start_time_global w) as [start|] eqn:Hst; [|discriminate].
    destruct (reported rq) as [hum|] eqn:Hrep.
    + rewrite (Desactivar_closes rq w start hum) by assumption.
      eexists; reflexivity.
    + rewrite (Desactivar_read_raises rq w start) by assumption.
      eexists; reflexivity.
  - intros Hst. destruct (update_ok rq) eqn:Hup.
    + rewrite Desactivar_not_started by assumption. simpl. auto.
    + rewrite Desactivar_update_raises by assumption. simpl. discriminate.
Qed.


(** ** One invocation follows one branch *)

Lemma after_nothing (w : World) (start : option float) (issued : list call) :
  after w start 0 issued [] =
    {| start_time_global := start; ticks := ticks w;
       calls := calls w ++ issued; table := table w |}.
Proof. unfold after. simpl. rewrite app_nil_r. reflexivity. Qed.

Lemma after_one_read (w : World) (start : option float)
    (issued : list call) :
  after w start 1 issued [] =
    {| start_time_global := start; ticks := S (ticks w);
       calls := calls w ++ issued; table := table w |}.
Proof. unfold after. simpl. rewrite app_nil_r. reflexivity. Qed.

Lemma stored_if_eq (rq : Request) (item : Item) :
  (if put_item_ok rq then [item] else []) = stored_if rq item.
Proof. reflexivity. Qed.

(** Every invocation returns a response and follows one of the branches of
    [paso]. *)
Lemma lambda_handler_paso (ev : envelope) (rq : Request) (w : World) :
  exists r w',
    lambda_handler ev rq w = (Returns r, w') /\ paso rq w ev r w'.
Proof.
  destruct ev as [|name|].
  - do 2 eexists. split; [reflexivity | constructor].
  - destruct (String.eqb_spec name "ActivarRegadorIntent") as [->|Ha].
    { do 2 eexists. split; [|apply paso_activar].
      unfold lambda_handler, try_except. simpl.
      unfold speak_response, bind. rewrite Activar_eval.
      rewrite after_one_read. reflexivity. }
    destruct (String.eqb_spec name "DesactivarRegadorIntent") as [->|Hd].
    { assert (Hrun : forall s w',
                DesactivarRegador_handle rq w = (Returns s, w') ->
                lambda_handler (IntentRequest "DesactivarRegadorIntent") rq w
                = (Returns (says s), w')).
      { intros s w' E. unfold lambda_handler, try_except. simpl.
        unfold speak_response, bind. rewrite E. reflexivity. }
      destruct (update_ok rq) eqn:Hup.
      2:{ do 2 eexists. split;
            [apply Hrun; apply Desactivar_update_raises; assumption|].
          rewrite <- after_one_read.
          apply paso_desactivar_update_raises; assumption. }
      destruct (truthy (start_time_global w)) eqn:Htr.
      2:{ do 2 eexists. split;
            [apply Hrun; apply Desactivar_not_started; assumption|].
          rewrite <- after_one_read.
          apply paso_desactivar_not_started; assumption. }
      destruct (start_time_global w) as [start|] eqn:Hst; [|discriminate].
      destruct (reported rq) as [hum|] eqn:Hrep.
      - do 2 eexists. split;
          [apply Hrun; apply (Desactivar_closes rq w start hum); assumption|].
        rewrite stored_if_eq.
        apply (paso_desactivar_closes rq w start hum); assumption.
      - do 2 eexists. split;
          [apply Hrun; apply (Desactivar_read_raises rq w start); assumption|].
        rewrite <- after_one_read.
        apply (paso_desactivar_read_raises rq w start); assumption. }
    destruct (String.eqb_spec name "ConsultarHumedadIntent") as [->|Hc].
    { assert (Hrun : forall s w',
                ConsultarHumedad_handle rq w = (Returns s, w') ->
                lambda_handler (IntentRequest "ConsultarHumedadIntent") rq w
                = (Returns (says s), w')).
      { intros s w' E. unfold lambda_handler, try_except. simpl.
        unfold speak_response, bind. rewrite E. reflexivity. }
      destruct (publish_ok rq) eqn:Hpub.
      2:{ do 2 eexists. split;
            [apply Hrun; apply Consultar_publish_raises; assumption|].
          rewrite <- after_nothing.
          apply paso_consultar_publish_raises; assumption. }
      destruct (reported rq) as [[h|]|] eqn:Hrep.
      - destruct (Z_lt_le_dec 1300 h) as [Hdry|Hwet].
        + do 2 eexists. split;
            [apply Hrun; apply (Consultar_seco rq w h); assumption|].
          rewrite stored_if_eq.
          apply (paso_consultar_seco rq w h); assumption.
        + destruct (truthy (start_time_global w)) eqn:Htr.
          * destruct (start_time_global w) as [start|] eqn:Hst;
              [|discriminate].
            do 2 eexists. split;
              [apply Hrun;
               apply (Consultar_humedo_started rq w h start); assumption|].
            rewrite stored_if_eq.
            apply (paso_consultar_humedo_started rq w h start); assumption.
          * do 2 eexists. split;
              [apply Hrun;
               apply (Consultar_humedo_not_started rq w h); assumption|].
            rewrite stored_if_eq.
            apply (paso_consultar_humedo_not_started rq w h); assumption.
      - do 2 eexists. split;
          [apply Hrun; apply Consultar_no_humedad; assumption|].
        rewrite <- after_nothing.
        apply paso_consultar_no_humedad; assumption.
      - do 2 eexists. split;
          [apply Hrun; apply Consultar_read_raises; assumption|].
        rewrite <- after_nothing.
        apply paso_consultar_read_raises; assumption. }
    do 2 eexists. split; [|apply paso_other_intent; assumption].
    unfold lambda_handler, try_except. simpl.
    apply String.eqb_neq in Ha, Hd, Hc. rewrite Ha, Hd, Hc. reflexivity.
  - do 2 eexists. split; [reflexivity | constructor].
Qed.

(** The branches exclude each other: the request and the state fix the
    response and the state after. *)
Lemma paso_deterministic (rq : Request) (w : World) (ev : envelope)
    (r1 r2 : Response) (w1 w2 : World) :
  paso rq w ev r1 w1 -> paso rq w ev r2 w2 -> r1 = r2 /\ w1 = w2.
Proof.
  intros H1 H2.
  destruct H1; inversion H2; subst;
    try (split; reflexivity);
    try congruence; try lia;
    try match goal with
        | H : ?a <> ?a |- _ => contradiction H; reflexivity
        end;
    repeat match goal with
           | H1 : ?x = Some ?a, H2 : ?x = Some ?b |- _ =>
               rewrite H1 in H2; injection H2 as ?; subst
           end;
    try lia; try congruence; try (split; reflexivity).
Qed.

Lemma paso_iff (rq : Request) (w : World) (ev : envelope) (r : Response)
    (w' : World) :
  paso rq w ev r w' <-> lambda_handler ev rq w = (Returns r, w').
Proof.
  destruct (lambda_handler_paso ev rq w) as [r0 [w0 [E P]]]. split.
  - intros P'. destruct (paso_deterministic _ _ _ _ _ _ _ P P') as [-> ->].
    exact E.
  - intros E'. rewrite E in E'. injection E' as -> ->. exact P.
Qed.

(** The response and the state after an invocation follow a branch. *)
Lemma exec_paso (ev : envelope) (rq : Request) (w : World) :
  exists r,
    value (lambda_handler ev rq) w = Some r /\
    paso rq w ev r (exec (lambda_handler ev rq) w).
Proof.
  destruct (lambda_handler_paso ev rq w) as [r [w' [E P]]].
  exists r. unfold value, run, exec. rewrite E. split; [reflexivity | exact P].
Qed.

(** An invariant of one invocation is an invariant of every sequence. *)
Lemma serve_invariant (I : World -> Prop) :
  (forall ev rq w, I w -> I (exec (lambda_handler ev rq) w)) ->
  forall l w, I w -> I (serve l w).
Proof.
  intros Hstep l. induction l as [|[ev rq] rest IH]; intros w Hw.
  - exact Hw.
  - simpl. apply IH. apply Hstep. exact Hw.
Qed.

(** ** More on the builtins *)

Lemma round2_nonneg (up : bool) (x : float) :
  (0 <= x)%Q -> 0 <= round2 up x.
Proof.
  intros Hx. unfold round2, round_nearest.
  assert (Hf : 0 <= Qfloor (x * 100)).
  { change 0 with (Qfloor 0). apply Qfloor_resp_le. lra. }
  destruct (x * 100 - inject_Z (Qfloor (x * 100)) ?= 1 # 2)%Q;
    [destruct up| |]; lia.
Qed.

(** The rounded volume stays within three hundredths of five times the
    rounded duration. *)
Lemma round2_flow_rate (up_d up_v : bool) (d : float) :
  Z.abs (round2 up_v (d * FLOW_RATE)%Q - 5 * round2 up_d d) <= 3.
Proof.
  pose proof (round2_nearest up_d d) as Hd.
  pose proof (round2_nearest up_v (d * FLOW_RATE)%Q) as Hv.
  apply Qabs_Qle_condition in Hd, Hv. unfold FLOW_RATE in *.
  set (a := round2 up_d d) in *. set (b := round2 up_v (d * 5)%Q) in *.
  apply Z.abs_le. split; rewrite Zle_Qle.
  - unfold Z.sub. rewrite inject_Z_plus, !inject_Z_opp, inject_Z_mult.
    change (inject_Z 5) with 5%Q. change (inject_Z 3) with 3%Q. lra.
  - unfold Z.sub. rewrite inject_Z_plus, inject_Z_opp, inject_Z_mult.
    change (inject_Z 5) with 5%Q. change (inject_Z 3) with 3%Q. lra.
Qed.

(** ** What one invocation does to the table *)

Lemma paso_table (rq : Request) (w : World) (ev : envelope) (r : Response)
    (w' : World) :
  paso rq w ev r w' ->
  exists stored,
    table w' = table w ++ stored /\
    (length stored <= if may_store ev then 1 else 0)%nat /\
    forall item, In item stored ->
      (exists t_id start t_request humedad,
         item = item_sin_fin rq t_id start t_request humedad) \/
      (exists id start k t_request humedad status,
         start_time_global w = Some start /\
         (ticks w <= k)%nat /\
         (status = "Desactivado"%string \/
          status = "Consulta Humedad"%string /\ humedad <> None) /\
         item = item_con_fin rq id start (clock k) t_request humedad status).
Proof.
  assert (Hnone : forall n : nat, (length (@nil Item) <= n)%nat)
    by (intros; simpl; lia).
  assert (Hif : forall item n,
            (length (stored_if rq item) <= S n)%nat)
    by (intros; unfold stored_if; destruct (put_item_ok rq); simpl; lia).
  destruct 1;
    try (exists [];
         split; [simpl; rewrite ?app_nil_r; reflexivity
                | split; [apply Hnone | intros ? []]]).
  - eexists. split; [reflexivity|]. split; [exact (Hif _ 0%nat)|].
    intros item Hin. right. unfold stored_if in Hin.
    destruct (put_item_ok rq); [|destruct Hin].
    destruct Hin as [<-|[]].
    exists (IntStamp (int end_time)), start, (ticks w), end_time, humedad,
      "Desactivado"%string.
    repeat split; auto.
  - eexists. split; [reflexivity|]. split; [exact (Hif _ 0%nat)|].
    intros item Hin. left. unfold stored_if in Hin.
    destruct (put_item_ok rq); [|destruct Hin].
    destruct Hin as [<-|[]]. do 4 eexists. reflexivity.
  - eexists. split; [reflexivity|]. split; [exact (Hif _ 0%nat)|].
    intros item Hin. left. unfold stored_if in Hin.
    destruct (put_item_ok rq); [|destruct Hin].
    destruct Hin as [<-|[]]. do 4 eexists. reflexivity.
  - eexists. split; [reflexivity|]. split; [exact (Hif _ 0%nat)|].
    intros item Hin. right. unfold stored_if in Hin.
    destruct (put_item_ok rq); [|destruct Hin].
    destruct Hin as [<-|[]].
    exists (FloatStamp (clock n)), start, (2 + n)%nat, (clock (1 + n)),
      (Some humedad), "Consulta Humedad"%string.
    repeat split; auto; try (unfold n; lia).
    right. split; [reflexivity | discriminate].
Qed.

(** A property that the old records and the new ones have. *)
Lemma forallb_extend (P : Item -> bool) (old new stored : list Item) :
  new = old ++ stored ->
  (forall item, In item stored -> P item = true) ->
  forallb P old = true -> forallb P new = true.
Proof.
  intros -> Hnew Hold. rewrite forallb_app, Hold. simpl.
  apply forallb_forall. exact Hnew.
Qed.

(** ** Properties of every sequence of invocations *)

Lemma well_formed_sin_fin (rq : Request) (t_id start t_request : float)
    (humedad : Z) :
  well_formed (item_sin_fin rq t_id start t_request humedad) = true.
Proof.
  unfold well_formed, item_sin_fin. cbn -[String.eqb].
  rewrite String.eqb_refl. reflexivity.
Qed.

Lemma well_formed_con_fin (rq : Request) (id : stamp)
    (start end_time t_request : float) (humedad : option Z)
    (status : string) :
  status = "Desactivado"%string \/
  status = "Consulta Humedad"%string /\ humedad <> None ->
  well_formed
    (item_con_fin rq id start end_time t_request humedad status) = true.
Proof.
  unfold well_formed, item_con_fin. cbn -[String.eqb].
  rewrite String.eqb_refl. intros [->|[-> Hh]]; [reflexivity|].
  destruct humedad; [reflexivity | contradiction].
Qed.

(** X2. Every record the skill stores is well formed: it names this thing in
    [ThingID] and in its id, and it has either no end time, no duration and
    no volume (status "Consulta Humedad", with the reading), or all three
    (status "Desactivado", or "Consulta Humedad" with the reading). *)
Theorem X2_records_well_formed (l : list (envelope * Request)) (w : World) :
  forallb well_formed (table w) = true ->
  forallb well_formed (table (serve l w)) = true.
Proof.
  apply (serve_invariant (fun w => forallb well_formed (table w) = true)).
  clear l w. intros ev rq w Hw.
  destruct (exec_paso ev rq w) as [r [_ P]].
  destruct (paso_table _ _ _ _ _ P) as [stored [E [_ Hnew]]].
  apply (forallb_extend _ _ _ _ E); [|exact Hw].
  intros item Hin.
  destruct (Hnew item Hin)
    as [[t_id [start [t_request [humedad ->]]]]
       |[id [start [k [t_request [humedad [status [_ [_ [Hs ->]]]]]]]]]].
  - apply well_formed_sin_fin.
  - apply well_formed_con_fin. exact Hs.
Qed.

(** X3. In every record the skill stores, the volume is within 0.03 litres
    of five times the stored duration: the two are rounded separately from
    the unrounded duration. *)
Theorem X3_volume_tracks_duration (l : list (envelope * Request))
    (w : World) :
  forallb volume_tracks_duration (table w) = true ->
  forallb volume_tracks_duration (table (serve l w)) = true.
Proof.
  apply (serve_invariant
           (fun w => forallb volume_tracks_duration (table w) = true)).
  clear l w. intros ev rq w Hw.
  destruct (exec_paso ev rq w) as [r [_ P]].
  destruct (paso_table _ _ _ _ _ P) as [stored [E [_ Hnew]]].
  apply (forallb_extend _ _ _ _ E); [|exact Hw].
  intros item Hin.
  destruct (Hnew item Hin)
    as [[t_id [start [t_request [humedad ->]]]]
       |[id [start [k [t_request [humedad [status [_ [_ [_ ->]]]]]]]]]].
  - reflexivity.
  - unfold volume_tracks_duration, item_con_fin. simpl.
    apply Z.leb_le. apply round2_flow_rate.
Qed.

Lemma past_reading_step (ev : envelope) (rq : Request) (w : World) :
  past_reading w -> past_reading (exec (lambda_handler ev rq) w).
Proof.
  intros Hw.
  destruct (exec_paso ev rq w) as [r [_ P]].
  assert (Hkeep : forall reads issued stored,
            past_reading (after w (start_time_global w) reads issued stored)).
  { intros reads issued stored. unfold past_reading in *. simpl.
    destruct (start_time_global w) as [t|]; [|exact I].
    destruct Hw as [k [Hk ->]]. exists k. split; [lia | reflexivity]. }
  assert (Hnew : forall k reads issued stored,
            (ticks w <= k < reads + ticks w)%nat ->
            past_reading (after w (Some (clock k)) reads issued stored)).
  { intros k reads issued stored Hk. unfold past_reading. simpl.
    exists k. split; [lia | reflexivity]. }
  destruct P;
    try exact Hw;
    try apply Hkeep;
    try (apply Hnew; try unfold n; lia);
    try exact I;
    try match goal with
        | H : start_time_global w = Some ?s |- _ => rewrite <- H; apply Hkeep
        end.
Qed.

(** X4. The start time the global holds is never invented: after any
    sequence of invocations it is empty or one of the readings the clock has
    already given, provided it was so before. *)
Theorem X4_start_time_is_past_reading (l : list (envelope * Request))
    (w : World) :
  past_reading w -> past_reading (serve l w).
Proof.
  apply (serve_invariant past_reading). intros ev rq w0.
  apply past_reading_step.
Qed.

(** X5. With a clock that never goes back, no record has a negative
    duration or volume: the invariant, kept by every sequence of
    invocations, is that the start time is a past reading and the stored
    durations and volumes are not negative. *)
Theorem X5_durations_not_negative (l : list (envelope * Request))
    (w : World) :
  monotone ->
  past_reading w ->
  forallb non_negative (table w) = true ->
  forallb non_negative (table (serve l w)) = true.
Proof.
  intros Hmono Hpast Hold.
  enough (H : past_reading (serve l w) /\
              forallb non_negative (table (serve l w)) = true) by apply H.
  apply (serve_invariant
           (fun w => past_reading w /\
                     forallb non_negative (table w) = true));
    [|split; assumption].
  clear l w Hpast Hold. intros ev rq w [Hpast Hold].
  split; [apply past_reading_step; exact Hpast|].
  destruct (exec_paso ev rq w) as [r [_ P]].
  destruct (paso_table _ _ _ _ _ P) as [stored [E [_ Hnew]]].
  apply (forallb_extend _ _ _ _ E); [|exact Hold].
  intros item Hin.
  destruct (Hnew item Hin)
    as [[t_id [start [t_request [humedad ->]]]]
       |[id [start [k [t_request [humedad [status [Hst [Hk [_ ->]]]]]]]]]].
  - reflexivity.
  - unfold past_reading in Hpast. rewrite Hst in Hpast.
    destruct Hpast as [k0 [Hk0 ->]].
    assert (Hle : (clock k0 <= clock k)%Q) by (apply Hmono; lia).
    unfold non_negative, item_con_fin. simpl.
    apply andb_true_intro. split; apply Z.leb_le; apply round2_nonneg;
      unfold FLOW_RATE.
    + apply Qle_shift_div_l; [reflexivity | lra].
    + apply Qmult_le_0_compat; [|discriminate].
      apply Qle_shift_div_l; [reflexivity | lra].
Qed.

(** ** What one invocation issues *)

Lemma settled_from_app (p : option call) (l1 l2 : list call) :
  settled_from p (l1 ++ l2) =
  settled_from p l1 && settled_from (last_call p l1) l2.
Proof.
  revert p. induction l1 as [|c rest IH]; intros p; [reflexivity|].
  simpl. destruct c as [b| | |z]; try apply IH.
  destruct p as [[b| | |z]|]; try reflexivity.
  destruct z as [|[q|q|]|q]; try reflexivity. apply IH.
Qed.

Lemma paso_calls (rq : Request) (w : World) (ev : envelope) (r : Response)
    (w' : World) :
  paso rq w ev r w' ->
  exists issued,
    calls w' = calls w ++ issued /\
    (forall p, settled_from p issued = true) /\
    (forall b, length (filter (is_update b) issued) =
               if accepts ev (pump_handler b) then 1 else 0)%nat.
Proof.
  destruct 1;
    try (exists []; split; [rewrite app_nil_r; reflexivity|];
         split; [reflexivity|]; intros [|]; try reflexivity);
    try (eexists; split; [reflexivity|];
         split; [reflexivity|]; intros [|]; reflexivity).
  - unfold accepts. simpl.
    rewrite (proj2 (String.eqb_neq _ _) H). reflexivity.
  - unfold accepts. simpl.
    rewrite (proj2 (String.eqb_neq _ _) H0). reflexivity.
Qed.

(** X6. The settle delay is never skipped: in the calls the skill issues
    over any sequence of invocations, every read of the shadow comes
    directly after a one-second sleep. *)
Theorem X6_shadow_reads_settled (l : list (envelope * Request)) (w : World) :
  settled (calls w) = true -> settled (calls (serve l w)) = true.
Proof.
  apply (serve_invariant (fun w => settled (calls w) = true)).
  clear l w. intros ev rq w Hw.
  destruct (exec_paso ev rq w) as [r [_ P]].
  destruct (paso_calls _ _ _ _ _ P) as [issued [E [Hs _]]].
  rewrite E. unfold settled in *. rewrite settled_from_app, Hw, Hs.
  reflexivity.
Qed.

(** X7. The pump is commanded by activations and deactivations and by
    nothing else: over any sequence of invocations the number of shadow
    updates to ON (to OFF) that are issued is the number of activation
    (deactivation) requests in the sequence, whatever their outcome; moisture
    queries, launches and unhandled requests issue none. *)
Theorem X7_pump_commands_match_requests (l : list (envelope * Request))
    (w : World) (b : bomba) :
  length (filter (is_update b) (calls (serve l w))) =
  (length (filter (is_update b) (calls w)) +
   length (filter (fun p => accepts (fst p) (pump_handler b)) l))%nat.
Proof.
  revert w. induction l as [|[ev rq] rest IH]; intros w.
  - simpl. lia.
  - simpl serve. rewrite IH.
    destruct (exec_paso ev rq w) as [r [_ P]].
    destruct (paso_calls _ _ _ _ _ P) as [issued [E [_ Hn]]].
    rewrite E, filter_app, length_app, Hn. simpl filter.
    destruct (accepts ev (pump_handler b)); simpl length; lia.
Qed.

(** ** The dispatch *)

(** Two registered handlers that accept the same request are the same
    handler. *)
Lemma accepted_unique (ev : envelope) (h h' : RequestHandler) :
  In h request_handlers -> In h' request_handlers ->
  accepts ev h = true -> accepts ev h' = true -> h = h'.
Proof.
  intros Hh Hh' A A'.
  destruct Hh as [<-|[<-|[<-|[<-|[]]]]];
    destruct Hh' as [<-|[<-|[<-|[<-|[]]]]];
    try reflexivity;
    destruct ev as [|name|]; try discriminate;
    unfold accepts in A, A'; simpl in A, A';
    try discriminate;
    destruct (String.eqb_spec name "ActivarRegadorIntent");
    destruct (String.eqb_spec name "DesactivarRegadorIntent");
    destruct (String.eqb_spec name "ConsultarHumedadIntent");
    subst; discriminate.
Qed.

(** A launch or a session-ended request ends every dispatch over registered
    handlers in an exception: the launch handler raises in [handle], the
    intent handlers raise in [can_handle]. *)
Lemma dispatch_no_intent (hs : list RequestHandler) (ev : envelope)
    (rq : Request) (w : World) :
  (forall h, In h hs -> In h request_handlers) ->
  get_intent_name ev = Raises ->
  dispatch hs ev rq w = (Raises, w).
Proof.
  intros Hin Hev. induction hs as [|h rest IH]; [reflexivity|].
  assert (Hh : In h request_handlers) by (apply Hin; left; reflexivity).
  assert (Hrest : forall h0, In h0 rest -> In h0 request_handlers)
    by (intros h0 H0; apply Hin; right; exact H0).
  destruct Hh as [<-|[<-|[<-|[<-|[]]]]];
    destruct ev as [|name|]; try discriminate;
    try reflexivity.
  simpl. apply IH. exact Hrest.
Qed.

(** An intent request goes to the first handler of the list that accepts
    it: no [can_handle] of a registered handler raises on it. *)
Lemma dispatch_intent (hs : list RequestHandler) (name : string)
    (rq : Request) :
  (forall h, In h hs -> In h request_handlers) ->
  dispatch hs (IntentRequest name) rq =
    match find (accepts (IntentRequest name)) hs with
    | Some h => handle h rq
    | None => raise
    end.
Proof.
  intros Hin. induction hs as [|h rest IH]; [reflexivity|].
  assert (Hh : In h request_handlers) by (apply Hin; left; reflexivity).
  assert (Hrest : forall h0, In h0 rest -> In h0 request_handlers)
    by (intros h0 H0; apply Hin; right; exact H0).
  specialize (IH Hrest).
  destruct Hh as [<-|[<-|[<-|[<-|[]]]]]; simpl; unfold accepts; simpl;
    try exact IH;
    match goal with
    | |- context [String.eqb name ?n] =>
        destruct (String.eqb name n); [reflexivity | exact IH]
    end.
Qed.

(** X8. At most one registered handler accepts a request, and the order of
    registration decides nothing: a skill built from the same handlers in
    any other order gives every request the same response and the same
    state. *)
Theorem X8_registration_order_is_immaterial (hs : list RequestHandler) :
  (forall ev, (length (filter (accepts ev) request_handlers) <= 1)%nat) /\
  ((forall h, In h hs <-> In h request_handlers) ->
   forall ev rq w,
     try_except (dispatch hs ev rq) ErrorHandler_handle w =
     lambda_handler ev rq w).
Proof.
  split.
  - intros ev. destruct ev as [|name|]; [simpl; lia| |simpl; lia].
    unfold request_handlers, accepts. simpl.
    destruct (String.eqb_spec name "ActivarRegadorIntent") as [->|Ha];
      [simpl; lia|].
    destruct (String.eqb_spec name "DesactivarRegadorIntent") as [->|Hd];
      [simpl; lia|].
    destruct (String.eqb_spec name "ConsultarHumedadIntent") as [->|Hc];
      simpl; lia.
  - intros Hsame ev rq w.
    assert (Hin : forall h, In h hs -> In h request_handlers)
      by (intros h; apply Hsame).
    assert (Hself : forall h, In h request_handlers -> In h request_handlers)
      by auto.
    unfold lambda_handler, try_except.
    destruct ev as [|name|].
    + rewrite (dispatch_no_intent hs) by (auto; reflexivity).
      rewrite (dispatch_no_intent request_handlers) by (auto; reflexivity).
      reflexivity.
    + rewrite (dispatch_intent hs) by exact Hin.
      rewrite (dispatch_intent request_handlers) by exact Hself.
      destruct (find (accepts (IntentRequest name)) hs) as [h|] eqn:F;
        destruct (find (accepts (IntentRequest name)) request_handlers)
          as [h'|] eqn:F'.
      * apply find_some in F, F'. destruct F as [I A], F' as [I' A'].
        rewrite (accepted_unique _ h h' (Hin h I) I' A A'). reflexivity.
      * apply find_some in F. destruct F as [I A].
        pose proof (find_none _ _ F' h (Hin h I)) as N. congruence.
      * apply find_some in F'. destruct F' as [I' A'].
        pose proof (find_none _ _ F h' (proj2 (Hsame h') I')) as N.
        congruence.
      * reflexivity.
    + rewrite (dispatch_no_intent hs) by (auto; reflexivity).
      rewrite (dispatch_no_intent request_handlers) by (auto; reflexivity).
      reflexivity.
Qed.

(** X9. Every request is answered. The apology of the error handler is the
    answer exactly when the request is not one of the three intents of the
    skill: another intent, a session-ended request, or a launch request,
    whose handler raises. Nothing else happens then: no clock reading, no
    call, no record, the start time untouched, no reprompt. *)
Theorem X9_apology_iff_not_a_handled_intent (ev : envelope) (rq : Request)
    (w : World) :
  exists r,
    value (lambda_handler ev rq) w = Some r /\
    (speak r = LoSiento <->
     existsb (accepts ev) intent_handlers = false) /\
    (speak r = LoSiento ->
     reprompt r = None /\ exec (lambda_handler ev rq) w = w).
Proof.
  destruct (exec_paso ev rq w) as [r [V P]].
  exists r. split; [exact V|].
  destruct P; simpl;
    try (split; [split; discriminate | discriminate]);
    try (split; [split; reflexivity | split; reflexivity]).
  unfold accepts. simpl.
  rewrite (proj2 (String.eqb_neq _ _) H), (proj2 (String.eqb_neq _ _) H0),
    (proj2 (String.eqb_neq _ _) H1).
  split; [split; reflexivity | split; reflexivity].
Qed.

(** X10. The welcome is never spoken and no response carries a reprompt: a
    launch request is accepted by the launch handler, whose [handle] raises
    at [reprompt], so it is answered with the apology of the error handler
    and leaves the process as it was. *)
Theorem X10_welcome_is_never_spoken (ev : envelope) (rq : Request)
    (w : World) :
  exists r,
    value (lambda_handler ev rq) w = Some r /\
    speak r <> Bienvenido /\
    reprompt r = None /\
    (ev = LaunchRequest ->
     accepts ev LaunchRequestHandler = true /\
     speak r = LoSiento /\
     exec (lambda_handler ev rq) w = w).
Proof.
  destruct (exec_paso ev rq w) as [r [V P]].
  exists r. split; [exact V|].
  destruct P; simpl;
    (split; [discriminate|]); (split; [reflexivity|]);
    try discriminate.
  intros _. repeat split; reflexivity.
Qed.

(** ** Deactivations, one after another *)

(** The deactivation speaks of litres only on the branch that closes. *)
Lemma Desactivar_desactivado_inv (rq : Request) (w : World)
    (litros : Decimal) :
  value (DesactivarRegador_handle rq) w = Some (RegadorDesactivado litros) ->
  exists start humedad,
    update_ok rq = true /\ start_time_global w = Some start /\
    truthy (Some start) = true /\ reported rq = Some humedad /\
    litros = round2 (volume_tie_up rq)
               ((clock (ticks w) - start) / 60 * FLOW_RATE)%Q.
Proof.
  unfold value, run.
  destruct (update_ok rq) eqn:Hup;
    [|rewrite Desactivar_update_raises by assumption; discriminate].
  destruct (truthy (start_time_global w)) eqn:Htr;
    [|rewrite Desactivar_not_started by assumption; discriminate].
  destruct (start_time_global w) as [start|] eqn:Hst; [|discriminate].
  destruct (reported rq) as [hum|] eqn:Hrep.
  - rewrite (Desactivar_closes rq w start hum) by assumption.
    simpl. intros [= <-]. exists start, hum. auto.
  - rewrite (Desactivar_read_raises rq w start) by assumption. discriminate.
Qed.

(** X11. The litres a deactivation speaks are the litres it stores, and the
    watering is over whether or not the store takes the record: when the
    answer names a volume, the start time is cleared and the table gains the
    record with that volume, status "Desactivado" and the end time as
    request time if [put_item] returns, and nothing if it raises. *)
Theorem X11_spoken_litres_are_stored (rq : Request) (w : World)
    (litros : Decimal) :
  value (DesactivarRegador_handle rq) w = Some (RegadorDesactivado litros) ->
  let w' := exec (DesactivarRegador_handle rq) w in
  start_time_global w' = None /\
  exists item,
    table w' = table w ++ (if put_item_ok rq then [item] else []) /\
    WaterVolume item = Some litros /\
    SystemStatus item = "Desactivado"%string /\
    EndTime item = Some (RequestTime item) /\
    UserID item = user_id rq.
Proof.
  intros V w'. subst w'.
  destruct (Desactivar_desactivado_inv rq w litros V)
    as [start [hum [Hup [Hst [Htr [Hrep ->]]]]]].
  unfold exec. rewrite (Desactivar_closes rq w start hum) by assumption.
  simpl. split; [reflexivity|].
  eexists. split; [reflexivity|]. simpl. repeat split; reflexivity.
Qed.

(** X12. A watering is closed once: after a deactivation that names a
    volume, the next deactivation whose shadow update succeeds answers "was
    not active", stores nothing and leaves the start time empty. *)
Theorem X12_second_deactivation_finds_nothing (rq1 rq2 : Request)
    (w : World) (litros : Decimal) :
  value (DesactivarRegador_handle rq1) w = Some (RegadorDesactivado litros) ->
  update_ok rq2 = true ->
  let w1 := exec (DesactivarRegador_handle rq1) w in
  let w2 := exec (DesactivarRegador_handle rq2) w1 in
  value (DesactivarRegador_handle rq2) w1 = Some RegadorNoActivado /\
  table w2 = table w1 /\
  start_time_global w2 = None.
Proof.
  intros V Hup2 w1 w2. subst w2 w1.
  destruct (Desactivar_desactivado_inv rq1 w litros V)
    as [start [hum [Hup [Hst [Htr [Hrep _]]]]]].
  unfold exec, value, run.
  rewrite (Desactivar_closes rq1 w start hum) by assumption. simpl.
  rewrite Desactivar_not_started by (try assumption; reflexivity).
  simpl. repeat split; reflexivity.
Qed.

(** X13. A deactivation whose shadow read raises has already sent the pump
    OFF but keeps the start time; the deactivation that is tried again
    sends OFF once more and stores the one record, whose end is the time of
    the second try. *)
Theorem X13_deactivation_retried (rq1 rq2 : Request) (w : World)
    (start : float) (humedad : option Z) :
  start_time_global w = Some start ->
  truthy (Some start) = true ->
  update_ok rq1 = true -> reported rq1 = None ->
  update_ok rq2 = true -> reported rq2 = Some humedad ->
  put_item_ok rq2 = true ->
  let w1 := exec (DesactivarRegador_handle rq1) w in
  let w2 := exec (DesactivarRegador_handle rq2) w1 in
  let retry := clock (1 + ticks w) in
  value (DesactivarRegador_handle rq1) w = Some ProblemaDesactivar /\
  start_time_global w1 = Some start /\
  table w1 = table w /\
  calls w2 =
    calls w ++ [update_thing_shadow OFF; sleep 1; get_thing_shadow;
                update_thing_shadow OFF; sleep 1; get_thing_shadow] /\
  table w2 =
    table w ++
    [item_con_fin rq2 (IntStamp (int retry)) start retry retry humedad
       "Desactivado"] /\
  start_time_global w2 = None.
Proof.
  intros Hst Htr Hup1 Hrep1 Hup2 Hrep2 Hput w1 w2 retry. subst w2 w1.
  unfold exec, value, run.
  rewrite (Desactivar_read_raises rq1 w start) by assumption. simpl.
  rewrite (Desactivar_closes rq2 _ start humedad)
    by (try assumption; reflexivity).
  simpl. rewrite Hput, <- app_assoc. repeat split; reflexivity.
Qed.

(** X14. Two waterings that are closed by voice get the same event id
    exactly when their end times truncate to the same second: the id of a
    deactivation record holds nothing else that tells them apart. *)
Theorem X14_deactivation_ids_collide_within_a_second (rq1 rq2 rq3 : Request)
    (w : World) (start : float) (h1 h3 : option Z) :
  start_time_global w = Some start ->
  truthy (Some start) = true ->
  truthy (Some (clock (1 + ticks w))) = true ->
  update_ok rq1 = true -> reported rq1 = Some h1 -> put_item_ok rq1 = true ->
  update_ok rq3 = true -> reported rq3 = Some h3 -> put_item_ok rq3 = true ->
  let w3 := exec (DesactivarRegador_handle rq3)
              (exec (ActivarRegador_handle rq2)
                 (exec (DesactivarRegador_handle rq1) w)) in
  exists first second,
    table w3 = table w ++ [first; second] /\
    (ID first = ID second <->
     int (clock (ticks w)) = int (clock (2 + ticks w))).
Proof.
  intros Hst Htr Htr2 Hup1 Hrep1 Hput1 Hup3 Hrep3 Hput3 w3. subst w3.
  unfold exec.
  rewrite (Desactivar_closes rq1 w start h1) by assumption. simpl.
  rewrite Activar_eval. simpl.
  rewrite (Desactivar_closes rq3 _ (clock (1 + ticks w)) h3)
    by (try assumption; reflexivity).
  simpl. rewrite Hput1, Hput3, <- app_assoc. simpl.
  do 2 eexists. split; [reflexivity|]. simpl. split.
  - intros [= E]. exact E.
  - intros E. rewrite E. reflexivity.
Qed.

(** ** What the table keeps *)




Lemma holds_app (log : list Item) (item : Item) :
  holds (log ++ [item]) = replace_item (holds log) item.
Proof. unfold holds. rewrite fold_left_app. reflexivity. Qed.

(** The table keeps nothing that was not written. *)
Lemma holds_incl (log : list Item) (item : Item) :
  In item (holds log) -> In item log.
Proof.
  induction log as [|last rest IH] using rev_ind; [intros []|].
  rewrite holds_app. unfold replace_item. intros H.
  apply in_app_or in H. apply in_or_app. destruct H as [H|H].
  - left. apply IH. apply filter_In in H. apply H.
  - right. exact H.
Qed.


(** ** The start time, over all requests *)

Lemma paso_value_exec (rq : Request) (w : World) (ev : envelope)
    (r : Response) (w' : World) :
  paso rq w ev r w' ->
  value (lambda_handler ev rq) w = Some r /\
  exec (lambda_handler ev rq) w = w'.
Proof.
  intros P. apply paso_iff in P. unfold value, run, exec. rewrite P.
  split; reflexivity.
Qed.

(** X15. Only a deactivation that runs to its end empties the start time:
    if a start time is held before an invocation and none after it, the
    request was the deactivation intent and the answer names the litres
    used. No moisture query, whatever it reads, and no failure empties it. *)
Theorem X15_only_deactivation_clears_start (ev : envelope) (rq : Request)
    (w : World) :
  start_time_global w <> None ->
  start_time_global (exec (lambda_handler ev rq) w) = None ->
  ev = IntentRequest "DesactivarRegadorIntent" /\
  exists litros,
    value (lambda_handler ev rq) w = Some (says (RegadorDesactivado litros)).
Proof.
  intros Hheld Hnone.
  destruct (exec_paso ev rq w) as [r [V P]]. rewrite V.
  destruct P; simpl in Hnone;
    try contradiction; try discriminate.
  split; [reflexivity|]. eexists. reflexivity.
Qed.

(** The moisture query speaks a level only after it has read one. *)
Lemma Consultar_nivel_inv (rq : Request) (w : World) (humedad : Z)
    (e : estado) :
  value (ConsultarHumedad_handle rq) w = Some (NivelDeHumedad humedad e) ->
  publish_ok rq = true /\ reported rq = Some (Some humedad) /\
  e = estado_de humedad.
Proof.
  unfold value, run.
  destruct (publish_ok rq) eqn:Hpub;
    [|rewrite Consultar_publish_raises by assumption; discriminate].
  destruct (reported rq) as [[h|]|] eqn:Hrep.
  - destruct (Z_lt_le_dec 1300 h) as [Hdry|Hwet].
    + rewrite (Consultar_seco rq w h) by assumption.
      simpl. intros [= <- <-]. auto.
    + destruct (truthy (start_time_global w)) eqn:Htr.
      * destruct (start_time_global w) as [start|] eqn:Hst; [|discriminate].
        rewrite (Consultar_humedo_started rq w h start) by assumption.
        simpl. intros [= <- <-]. auto.
      * rewrite (Consultar_humedo_not_started rq w h) by assumption.
        simpl. intros [= <- <-]. auto.
  - rewrite Consultar_no_humedad by assumption. discriminate.
  - rewrite Consultar_read_raises by assumption. discriminate.
Qed.

(** X16. A moisture query that speaks a level always leaves a start time in
    the global, having issued the publish, the sleep and the shadow read and
    no pump command: on a process with no watering under way it starts the
    count of one, and on a process with a watering under way it does not end
    it. The level it speaks is the one it read. *)
Theorem X16_query_with_reading_leaves_start (rq : Request) (w : World)
    (humedad : Z) (e : estado) :
  value (ConsultarHumedad_handle rq) w = Some (NivelDeHumedad humedad e) ->
  let w' := exec (ConsultarHumedad_handle rq) w in
  reported rq = Some (Some humedad) /\
  (exists t, start_time_global w' = Some t) /\
  calls w' =
    calls w ++ [publish_solicitud_humedad; sleep 1; get_thing_shadow] /\
  (truthy (start_time_global w) = true -> humedad <= 1300 ->
   start_time_global w' = start_time_global w).
Proof.
  intros V w'. subst w'.
  destruct (Consultar_nivel_inv rq w humedad e V) as [Hpub [Hrep _]].
  split; [exact Hrep|]. unfold exec.
  destruct (Z_lt_le_dec 1300 humedad) as [Hdry|Hwet].
  - rewrite (Consultar_seco rq w humedad) by assumption. simpl.
    split; [eexists; reflexivity|]. split; [reflexivity|]. lia.
  - destruct (truthy (start_time_global w)) eqn:Htr.
    + destruct (start_time_global w) as [start|] eqn:Hst; [|discriminate].
      rewrite (Consultar_humedo_started rq w humedad start) by assumption.
      simpl. split; [eexists; reflexivity|]. split; reflexivity.
    + rewrite (Consultar_humedo_not_started rq w humedad) by assumption.
      simpl. split; [eexists; reflexivity|]. split; [reflexivity|].
      discriminate.
Qed.

(** ** Failures of the store *)

Lemma paso_with_put_item_ok (rq : Request) (w : World) (ev : envelope)
    (r : Response) (w' : World) (ok : bool) :
  paso rq w ev r w' ->
  exists w'',
    paso (with_put_item_ok rq ok) w ev r w'' /\
    start_time_global w'' = start_time_global w' /\
    ticks w'' = ticks w' /\
    calls w'' = calls w' /\
    (ok = false -> table w'' = table w).
Proof.
  assert (Hnil : forall st n cs,
            table (after w st n cs []) = table w)
    by (intros; simpl; apply app_nil_r).
  assert (Hif : forall st n cs item,
            ok = false ->
            table (after w st n cs
                     (stored_if (with_put_item_ok rq ok) item)) = table w)
    by (intros st n cs item ->; simpl; apply app_nil_r).
  destruct 1;
    try change (update_ok rq) with (update_ok (with_put_item_ok rq ok));
    try change (volume_tie_up rq)
          with (volume_tie_up (with_put_item_ok rq ok));
    (eexists; split;
     [econstructor; simpl; eassumption
     | repeat split; try reflexivity; intros; auto]).
Qed.

(** X17. A failure of the store is silent: with the same request and the
    same state, the answer, the start time, the clock readings taken and the
    calls issued are the same whether [put_item] returns or raises; and when
    it raises the table is left as it was. *)
Theorem X17_store_failure_is_silent (ev : envelope) (rq : Request)
    (w : World) (ok : bool) :
  let m := lambda_handler ev rq in
  let m' := lambda_handler ev (with_put_item_ok rq ok) in
  value m' w = value m w /\
  start_time_global (exec m' w) = start_time_global (exec m w) /\
  ticks (exec m' w) = ticks (exec m w) /\
  calls (exec m' w) = calls (exec m w) /\
  (ok = false -> table (exec m' w) = table w).
Proof.
  intros m m'. subst m m'.
  destruct (exec_paso ev rq w) as [r [V P]].
  destruct (paso_with_put_item_ok _ _ _ _ _ ok P)
    as [w'' [P' [Hs [Ht [Hc Htab]]]]].
  destruct (paso_value_exec _ _ _ _ _ P') as [V' E'].
  rewrite V', E', V. auto.
Qed.

End Skill.

(** ** The claims the code departs from, at concrete invocations *)

(** C1. A moisture query that reads 1000 (at or below 1300) while the start
    time 1000.0 is held stores a closing record (end time, duration 3.00,
    volume 15.00, status "Consulta Humedad") but does not clear
    [start_time_global]: after the invocation the start time is still held,
    and a second identical query stores a second closing record for the same
    start. The deactivation handler, on the same state, clears it. *)
Theorem C1_humedo_reading_keeps_start_time :
  let clk := readings [1180; 1180; 1180; 1240; 1240; 1240]%Q in
  let rq := answering (Some 1000) in
  let w := started 1000%Q in
  let w1 := exec (ConsultarHumedad_handle "regador" clk rq) w in
  let w2 := exec (ConsultarHumedad_handle "regador" clk rq) w1 in
  truthy (start_time_global w) = true /\
  start_time_global w1 = Some 1000%Q /\
  truthy (start_time_global w1) = true /\
  map (fun i => (StartTime i, EndTime i, Duration i, WaterVolume i,
                 SystemStatus i)) (table w1) =
    [(ISO 1000, Some (ISO 1180), Some 300, Some 1500,
      "Consulta Humedad"%string)] /\
  map (fun i => (StartTime i, EndTime i, Duration i, WaterVolume i))
    (table w2) =
    [(ISO 1000, Some (ISO 1180), Some 300, Some 1500);
     (ISO 1000, Some (ISO 1240), Some 400, Some 2000)] /\
  start_time_global
    (exec (DesactivarRegador_handle "regador" clk rq) w) = None.
Proof. vm_compute. repeat split; reflexivity. Qed.

(** C4. A reading of exactly 1300 is spoken as "seco", although the session
    logic of the same invocation takes the branch of the readings that are
    not above 1300 (it stores a closing record); 1299 is spoken as "húmedo"
    and 1301 as "seco". *)
Theorem C4_reading_1300_spoken_seco :
  let clk := readings [2000; 2000; 2000]%Q in
  let w := started 1000%Q in
  value (ConsultarHumedad_handle "regador" clk (answering (Some 1300))) w =
    Some (NivelDeHumedad 1300 seco) /\
  map EndTime
    (table (exec (ConsultarHumedad_handle "regador" clk
                    (answering (Some 1300))) w)) = [Some (ISO 2000)] /\
  value (ConsultarHumedad_handle "regador" clk (answering (Some 1299))) w =
    Some (NivelDeHumedad 1299 humedo) /\
  value (ConsultarHumedad_handle "regador" clk (answering (Some 1301))) w =
    Some (NivelDeHumedad 1301 seco).
Proof. vm_compute. repeat split; reflexivity. Qed.

(** C5. An activation whose shadow update raises answers with the apology
    and still keeps the start time it wrote before the call: the state goes
    from no start time to the start time 1000.0, and the deactivation that
    follows stores a record for a watering that never started. *)
Theorem C5_failed_activation_keeps_new_start :
  let clk := readings [1000; 1120]%Q in
  let w' := exec (ActivarRegador_handle clk update_failing) fresh in
  start_time_global fresh = None /\
  value (ActivarRegador_handle clk update_failing) fresh =
    Some ProblemaActivar /\
  start_time_global w' = Some 1000%Q /\
  map (fun i => (Duration i, WaterVolume i))
    (table (exec (DesactivarRegador_handle "regador" clk
                    (answering (Some 900))) w')) =
    [(Some 200, Some 1000)].
Proof. vm_compute. repeat split; reflexivity. Qed.

(** A start time of exactly 0.0 is false in [if start_time_global]: the
    deactivation answers "was not active" and stores nothing. *)
Remark start_zero_is_no_session :
  let clk := readings [120]%Q in
  value (DesactivarRegador_handle "regador" clk (answering (Some 900)))
    (started 0%Q) = Some RegadorNoActivado /\
  table (exec (DesactivarRegador_handle "regador" clk (answering (Some 900)))
           (started 0%Q)) = [].
Proof. vm_compute. split; reflexivity. Qed.

(** Where the exact duration lies half way between two hundredths, the
    record has the neighbour that the float arithmetic of the invocation
    gives: after 1.5 s the code stores 0.03 (the float of 1.5/60 lies above
    0.025), after 4.5 s it stores 0.07 (the float of 4.5/60 lies below
    0.075). Off the ties the result does not depend on that input. *)
Remark round2_at_a_tie :
  round2 true ((3 # 2) / 60)%Q = 3 /\ round2 false ((3 # 2) / 60)%Q = 2 /\
  round2 false ((9 # 2) / 60)%Q = 7 /\ round2 true ((9 # 2) / 60)%Q = 8 /\
  round2 true (1 / 60)%Q = 2 /\ round2 false (1 / 60)%Q = 2.
Proof. vm_compute. repeat split; reflexivity. Qed.

(** ** Counterexamples to the claims as they are worded *)

(** C2 fails as worded: a reading of 1400 while the start time 1000.0 is held
    replaces the start time by 2003.0 and stores one more record without
    end. *)
Lemma C2_seco_reading_resets_start :
  let clk := readings [2000; 2001; 2002; 2003]%Q in
  let w := started 1000%Q in
  let w' := exec (ConsultarHumedad_handle "regador" clk
                    (answering (Some 1400))) w in
  truthy (start_time_global w) = true /\
  start_time_global w' = Some 2003%Q /\
  start_time_global w' <> start_time_global w /\
  map EndTime (table w') = [None] /\
  table w' <> table w.
Proof.
  vm_compute. repeat split; try reflexivity; discriminate.
Qed.

(** C3 fails as worded: a close one second after the start stores the
    duration 0.02 and the volume 0.08, where the rounded duration times the
    flow rate would be 0.10. *)
Lemma C3_volume_not_from_rounded_duration :
  let clk := readings [1001]%Q in
  let w' := exec (DesactivarRegador_handle "regador" clk
                    (answering (Some 900))) (started 1000%Q) in
  map (fun i => (Duration i, WaterVolume i)) (table w') =
    [(Some 2, Some 8)] /\
  volume_from_rounded_duration (answering (Some 900)) 1000%Q 1001%Q = 10 /\
  map WaterVolume (table w') <>
    [Some (volume_from_rounded_duration (answering (Some 900))
             1000%Q 1001%Q)].
Proof.
  vm_compute. repeat split; try reflexivity; discriminate.
Qed.

(** C6 fails as worded: a deactivation with no start time held whose shadow
    update raises answers with the apology, not with "was not active". *)
Lemma C6_desactivar_update_raises_apology :
  let clk := readings [1000]%Q in
  truthy (start_time_global fresh) = false /\
  value (DesactivarRegador_handle "regador" clk update_failing) fresh =
    Some ProblemaDesactivar /\
  value (DesactivarRegador_handle "regador" clk update_failing) fresh <>
    Some RegadorNoActivado.
Proof.
  vm_compute. repeat split; try reflexivity; discriminate.
Qed.

(** C7 fails as worded: the closing record of a moisture query has as id the
    untruncated reading 1000.5, taken before the reading 1001.25 that gives
    its end time 1001; the id is no integer stamp. *)
Lemma C7_consultar_id_not_truncated_end :
  let clk := readings [2001 # 2; 4003 # 4; 4005 # 4]%Q in
  let w' := exec (ConsultarHumedad_handle "regador" clk
                    (answering (Some 1000))) (started 900%Q) in
  map (fun i => (ID i, EndTime i)) (table w') =
    [(Evento (FloatStamp (2001 # 2)) "regador", Some (ISO 1001))] /\
  (forall i, In i (table w') ->
     forall seconds, ID i <> Evento (IntStamp seconds) "regador") /\
  int (2001 # 2)%Q <> 1001.
Proof.
  vm_compute. repeat split; try reflexivity; try discriminate.
  intros i [E|[]] seconds. subst i. discriminate.
Qed.


(** ** The general theorems at concrete invocations *)

Lemma C2_consultar_records_without_end_witness :
  let clk := readings [2000; 2001; 2002; 2003]%Q in
  (publish_ok (answering (Some 1400)) = true /\
   reported (answering (Some 1400)) = Some (Some 1400) /\
   1300 < 1400 /\
   start_time_global
     (exec (ConsultarHumedad_handle "regador" clk (answering (Some 1400)))
        (started 1000%Q)) = Some 2003%Q) /\
  (1000 <= 1300 /\ truthy (start_time_global fresh) = false /\
   start_time_global
     (exec (ConsultarHumedad_handle "regador" clk (answering (Some 1000)))
        fresh) = Some 2002%Q).
Proof.
  intros clk.
  assert (Hlt : 1300 < 1400) by reflexivity.
  assert (Hle : 1000 <= 1300) by discriminate.
  split.
  - split; [reflexivity|]. split; [reflexivity|]. split; [exact Hlt|].
    exact (proj1 (proj1 (C2_consultar_records_without_end "regador" clk
                           (answering (Some 1400)) (started 1000%Q) 1400
                           eq_refl eq_refl) Hlt)).
  - split; [exact Hle|]. split; [reflexivity|].
    exact (proj1 (proj2 (C2_consultar_records_without_end "regador" clk
                           (answering (Some 1000)) fresh 1000
                           eq_refl eq_refl) Hle eq_refl)).
Defined.

Lemma C3_closing_record_duration_volume_witness :
  let clk := readings [1120; 1120; 1120]%Q in
  let rq := answering (Some 1000) in
  let w := started 1000%Q in
  (start_time_global w = Some 1000%Q /\
   truthy (Some 1000%Q) = true /\
   put_item_ok rq = true /\
   (clk 0%nat - 1000 == 120)%Q /\
   1000 <= 1300) /\
  (exists item,
     table (exec (DesactivarRegador_handle "regador" clk rq) w) = [item] /\
     Duration item = Some 200 /\ WaterVolume item = Some 1000) /\
  (exists item,
     table (exec (ConsultarHumedad_handle "regador" clk rq) w) = [item] /\
     Duration item = Some 200 /\ WaterVolume item = Some 1000).
Proof.
  intros clk rq w.
  assert (Hle : 1000 <= 1300) by discriminate.
  assert (Htwo : (1120 - 1000 == 120)%Q) by reflexivity.
  split.
  - split; [reflexivity|]. split; [reflexivity|]. split; [reflexivity|].
    split; [exact Htwo | exact Hle].
  - destruct (C3_closing_record_duration_volume "regador" clk rq w 1000%Q
                eq_refl eq_refl eq_refl) as [Hvoice Hquery].
    split.
    + destruct (Hvoice (Some 1000) eq_refl eq_refl)
        as [item [d [v [Htable [Hd [Hv [_ [_ [_ [_ Hscenario]]]]]]]]]].
      destruct (Hscenario Htwo) as [Ed Ev]. rewrite Ed in Hd. rewrite Ev in Hv.
      exists item. split; [exact Htable | split; [exact Hd | exact Hv]].
    + destruct (Hquery 1000 eq_refl eq_refl Hle)
        as [item [d [v [Htable [Hd [Hv [_ [_ [_ [_ Hscenario]]]]]]]]]].
      destruct (Hscenario Htwo) as [Ed Ev]. rewrite Ed in Hd. rewrite Ev in Hv.
      exists item. split; [exact Htable | split; [exact Hd | exact Hv]].
Defined.

Lemma C6_desactivar_without_session_witness :
  let clk := readings [1000]%Q in
  let rq := answering (Some 900) in
  truthy (start_time_global fresh) = false /\
  table (exec (DesactivarRegador_handle "regador" clk rq) fresh) = [] /\
  start_time_global (exec (DesactivarRegador_handle "regador" clk rq) fresh) =
    None /\
  value (DesactivarRegador_handle "regador" clk rq) fresh =
    Some RegadorNoActivado.
Proof.
  intros clk rq. split; [reflexivity|].
  destruct (C6_desactivar_without_session "regador" clk rq fresh eq_refl)
    as [Htable [Hstart [_ Hvalue]]].
  split; [exact Htable|]. split; [exact Hstart | exact Hvalue].
Defined.

Lemma C7_event_ids_witness :
  let clk := readings [1120; 1121; 1122; 1123]%Q in
  let w := started 1000%Q in
  (put_item_ok (answering (Some 900)) = true /\
   truthy (Some 1000%Q) = true /\
   (0 <= clk 0%nat)%Q) /\
  (exists item,
     table (exec (DesactivarRegador_handle "regador" clk
                    (answering (Some 900))) w) = [item] /\
     ID item = Evento (IntStamp 1120) "regador" /\
     EndTime item = Some (ISO 1120) /\
     int (clk 0%nat) = Qfloor (clk 0%nat)) /\
  (exists item,
     table (exec (ConsultarHumedad_handle "regador" clk
                    (answering (Some 1400))) w) = [item] /\
     ID item = Evento (FloatStamp 1122%Q) "regador").
Proof.
  intros clk w.
  assert (Hepoch : (0 <= 1120)%Q) by discriminate.
  split.
  - split; [reflexivity|]. split; [reflexivity | exact Hepoch].
  - split.
    + destruct (proj1 (C7_event_ids "regador" clk (answering (Some 900)) w
                         eq_refl)
                  1000%Q (Some 900) eq_refl eq_refl eq_refl eq_refl)
        as [item [Htable [Hid [Hend Hsame]]]].
      exists item. split; [exact Htable|]. split; [exact Hid|].
      split; [exact Hend | exact (Hsame Hepoch)].
    + destruct (proj2 (C7_event_ids "regador" clk (answering (Some 1400)) w
                         eq_refl)
                  1400 eq_refl eq_refl)
        as [item [Htable [Hid _]]].
      exists item. split; [exact Htable | exact Hid].
Defined.


Lemma C9_desactivar_always_sends_off_witness :
  let clk := readings [1000]%Q in
  let rq := answering (Some 900) in
  (truthy (start_time_global fresh) = false /\
   value (DesactivarRegador_handle "regador" clk rq) fresh =
     Some RegadorNoActivado) /\
  calls (exec (DesactivarRegador_handle "regador" clk rq) fresh) =
    [update_thing_shadow OFF].
Proof.
  intros clk rq. split; [split; reflexivity|].
  exact (proj1 (proj2 (C9_desactivar_always_sends_off "regador" clk rq fresh)
                  eq_refl eq_refl)).
Defined.


(** ** Loading the module *)


(** ** The further theorems at concrete invocations *)

Lemma X2_records_well_formed_witness :
  let clk := seconds_from 1000 in
  let l := [(IntentRequest "ActivarRegadorIntent", answering None);
            (IntentRequest "DesactivarRegadorIntent", answering (Some 900));
            (IntentRequest "ConsultarHumedadIntent", answering (Some 1400))] in
  forallb (well_formed "regador") (table fresh) = true /\
  length (table (serve "regador" clk l fresh)) = 2%nat /\
  forallb (well_formed "regador") (table (serve "regador" clk l fresh)) = true.
Proof.
  intros clk l. split; [reflexivity|]. split; [reflexivity|].
  exact (X2_records_well_formed "regador" clk l fresh eq_refl).
Defined.

Lemma X3_volume_tracks_duration_witness :
  let clk := readings [1000; 1001; 1002; 1003; 1004; 1005]%Q in
  let l := [(IntentRequest "ActivarRegadorIntent", answering None);
            (IntentRequest "DesactivarRegadorIntent", answering (Some 900))] in
  forallb volume_tracks_duration (table fresh) = true /\
  map (fun i => (Duration i, WaterVolume i))
    (table (serve "regador" clk l fresh)) = [(Some 2, Some 8)] /\
  forallb volume_tracks_duration (table (serve "regador" clk l fresh)) = true.
Proof.
  intros clk l. split; [reflexivity|]. split; [reflexivity|].
  exact (X3_volume_tracks_duration "regador" clk l fresh eq_refl).
Defined.

Lemma X4_start_time_is_past_reading_witness :
  let clk := seconds_from 1000 in
  let l := [(IntentRequest "ConsultarHumedadIntent", answering (Some 1400))] in
  past_reading clk fresh /\
  start_time_global (serve "regador" clk l fresh) = Some (clk 3%nat) /\
  past_reading clk (serve "regador" clk l fresh).
Proof.
  intros clk l. split; [exact I|]. split; [reflexivity|].
  exact (X4_start_time_is_past_reading "regador" clk l fresh I).
Defined.

Lemma seconds_from_monotone (t0 : Z) : monotone (seconds_from t0).
Proof.
  intros n m H. unfold seconds_from. rewrite <- Zle_Qle. lia.
Qed.

Lemma X5_durations_not_negative_witness :
  let clk := seconds_from 1000 in
  let l := [(IntentRequest "ActivarRegadorIntent", answering None);
            (IntentRequest "ConsultarHumedadIntent", answering (Some 1000));
            (IntentRequest "DesactivarRegadorIntent", answering (Some 900))] in
  monotone clk /\ past_reading clk fresh /\
  forallb non_negative (table fresh) = true /\
  length (table (serve "regador" clk l fresh)) = 2%nat /\
  forallb non_negative (table (serve "regador" clk l fresh)) = true.
Proof.
  intros clk l. split; [apply seconds_from_monotone|].
  split; [exact I|]. split; [reflexivity|]. split; [reflexivity|].
  exact (X5_durations_not_negative "regador" clk l fresh
           (seconds_from_monotone 1000) I eq_refl).
Defined.

Lemma X6_shadow_reads_settled_witness :
  let clk := seconds_from 1000 in
  let l := [(IntentRequest "ActivarRegadorIntent", answering None);
            (IntentRequest "ConsultarHumedadIntent", answering (Some 1000));
            (IntentRequest "DesactivarRegadorIntent", answering (Some 900))] in
  settled (calls fresh) = true /\
  length (calls (serve "regador" clk l fresh)) = 7%nat /\
  settled (calls (serve "regador" clk l fresh)) = true.
Proof.
  intros clk l. split; [reflexivity|]. split; [reflexivity|].
  exact (X6_shadow_reads_settled "regador" clk l fresh eq_refl).
Defined.


Lemma X8_registration_order_is_immaterial_witness :
  let clk := seconds_from 1000 in
  let hs := rev (request_handlers "regador" clk) in
  let ev := IntentRequest "DesactivarRegadorIntent" in
  let rq := answering (Some 900) in
  (forall h, In h hs <-> In h (request_handlers "regador" clk)) /\
  try_except (dispatch hs ev rq) ErrorHandler_handle (started 1000%Q) =
    lambda_handler "regador" clk ev rq (started 1000%Q) /\
  try_except (dispatch hs LaunchRequest rq) ErrorHandler_handle fresh =
    lambda_handler "regador" clk LaunchRequest rq fresh.
Proof.
  intros clk hs ev rq.
  assert (Hsame : forall h, In h hs <-> In h (request_handlers "regador" clk))
    by (intros h; symmetry; apply in_rev).
  split; [exact Hsame|].
  split;
    apply (proj2 (X8_registration_order_is_immaterial "regador" clk hs)
             Hsame).
Defined.

Lemma X9_apology_iff_not_a_handled_intent_witness :
  let clk := seconds_from 1000 in
  let ev := IntentRequest "AMAZON.HelpIntent" in
  let rq := answering (Some 900) in
  existsb (accepts ev) (intent_handlers "regador" clk) = false /\
  value (lambda_handler "regador" clk ev rq) (started 1000%Q) =
    Some {| speak := LoSiento; reprompt := None |} /\
  exec (lambda_handler "regador" clk ev rq) (started 1000%Q) =
    started 1000%Q.
Proof.
  intros clk ev rq. split; [reflexivity|]. split; [reflexivity|].
  destruct (X9_apology_iff_not_a_handled_intent "regador" clk ev rq
              (started 1000%Q)) as [r [_ [Hiff Hsame]]].
  exact (proj2 (Hsame (proj2 Hiff eq_refl))).
Defined.

Lemma X10_welcome_is_never_spoken_witness :
  let clk := seconds_from 1000 in
  let rq := answering (Some 900) in
  value (lambda_handler "regador" clk LaunchRequest rq) (started 1000%Q) =
    Some {| speak := LoSiento; reprompt := None |} /\
  exec (lambda_handler "regador" clk LaunchRequest rq) (started 1000%Q) =
    started 1000%Q.
Proof.
  intros clk rq. split; [reflexivity|].
  destruct (X10_welcome_is_never_spoken "regador" clk LaunchRequest rq
              (started 1000%Q)) as [r [_ [_ [_ Hlaunch]]]].
  exact (proj2 (proj2 (Hlaunch eq_refl))).
Defined.

Lemma X11_spoken_litres_are_stored_witness :
  let clk := readings [1120]%Q in
  let rq := answering (Some 900) in
  let w := started 1000%Q in
  value (DesactivarRegador_handle "regador" clk rq) w =
    Some (RegadorDesactivado 1000) /\
  start_time_global (exec (DesactivarRegador_handle "regador" clk rq) w) =
    None /\
  exists item,
    table (exec (DesactivarRegador_handle "regador" clk rq) w) = [item] /\
    WaterVolume item = Some 1000.
Proof.
  intros clk rq w. split; [reflexivity|].
  destruct (X11_spoken_litres_are_stored "regador" clk rq w 1000 eq_refl)
    as [Hstart [item [Htable [Hvol _]]]].
  split; [exact Hstart|]. exists item. split; [exact Htable | exact Hvol].
Defined.

Lemma X12_second_deactivation_finds_nothing_witness :
  let clk := readings [1120; 1130]%Q in
  let rq := answering (Some 900) in
  let w := started 1000%Q in
  let w1 := exec (DesactivarRegador_handle "regador" clk rq) w in
  (value (DesactivarRegador_handle "regador" clk rq) w =
     Some (RegadorDesactivado 1000) /\
   update_ok rq = true) /\
  value (DesactivarRegador_handle "regador" clk rq) w1 =
    Some RegadorNoActivado /\
  length (table (exec (DesactivarRegador_handle "regador" clk rq) w1)) =
    1%nat.
Proof.
  intros clk rq w w1. split; [split; reflexivity|].
  destruct (X12_second_deactivation_finds_nothing "regador" clk rq rq w 1000
              eq_refl eq_refl) as [Hvalue [Htable _]].
  split; [exact Hvalue|]. fold w1 in Htable. rewrite Htable. reflexivity.
Defined.

Lemma X13_deactivation_retried_witness :
  let clk := readings [1120; 1180]%Q in
  let rq1 := {| user_id := "amzn1.ask.account.A"; update_ok := true;
                publish_ok := true; reported := None;
                put_item_ok := true;
                duration_tie_up := true; volume_tie_up := false |} in
  let rq2 := answering (Some 900) in
  let w := started 1000%Q in
  let w2 := exec (DesactivarRegador_handle "regador" clk rq2)
              (exec (DesactivarRegador_handle "regador" clk rq1) w) in
  (start_time_global w = Some 1000%Q /\ truthy (Some 1000%Q) = true /\
   update_ok rq1 = true /\ reported rq1 = None /\
   update_ok rq2 = true /\ reported rq2 = Some (Some 900) /\
   put_item_ok rq2 = true) /\
  map (fun i => (EndTime i, Duration i, WaterVolume i)) (table w2) =
    [(Some (ISO 1180), Some 300, Some 1500)] /\
  start_time_global w2 = None.
Proof.
  intros clk rq1 rq2 w w2.
  split; [repeat (split; [reflexivity|]); reflexivity|].
  destruct (X13_deactivation_retried "regador" clk rq1 rq2 w 1000%Q
              (Some 900) eq_refl eq_refl eq_refl eq_refl eq_refl eq_refl
              eq_refl) as [_ [_ [_ [_ [Htable Hstart]]]]].
  fold w2 in Htable, Hstart.
  split; [rewrite Htable; reflexivity | exact Hstart].
Defined.

Lemma X14_deactivation_ids_collide_within_a_second_witness :
  let clk := readings [2001 # 2; 4003 # 4; 10009 # 10]%Q in
  let rq := answering (Some 900) in
  let w := started 900%Q in
  let w3 := exec (DesactivarRegador_handle "regador" clk rq)
              (exec (ActivarRegador_handle clk rq)
                 (exec (DesactivarRegador_handle "regador" clk rq) w)) in
  (truthy (Some 900%Q) = true /\ truthy (Some (clk 1%nat)) = true /\
   int (clk 0%nat) = int (clk 2%nat)) /\
  exists first second,
    table w3 = [first; second] /\ ID first = ID second.
Proof.
  intros clk rq w w3. split; [repeat split; reflexivity|].
  destruct (X14_deactivation_ids_collide_within_a_second "regador" clk
              rq rq rq w 900%Q (Some 900) (Some 900)
              eq_refl eq_refl eq_refl eq_refl eq_refl eq_refl eq_refl
              eq_refl eq_refl) as [first [second [Htable Hid]]].
  exists first, second. split; [exact Htable | exact (proj2 Hid eq_refl)].
Defined.

Lemma X15_only_deactivation_clears_start_witness :
  let clk := readings [1120]%Q in
  let ev := IntentRequest "DesactivarRegadorIntent" in
  let rq := answering (Some 900) in
  let w := started 1000%Q in
  (start_time_global w <> None /\
   start_time_global (exec (lambda_handler "regador" clk ev rq) w) = None) /\
  exists litros,
    value (lambda_handler "regador" clk ev rq) w =
      Some (says (RegadorDesactivado litros)).
Proof.
  intros clk ev rq w.
  assert (Hheld : start_time_global w <> None) by discriminate.
  split; [split; [exact Hheld | reflexivity]|].
  exact (proj2 (X15_only_deactivation_clears_start "regador" clk ev rq w
                  Hheld eq_refl)).
Defined.

Lemma X16_query_with_reading_leaves_start_witness :
  let clk := readings [2000; 2001; 2002]%Q in
  let rq := answering (Some 1000) in
  let w := started 1000%Q in
  (value (ConsultarHumedad_handle "regador" clk rq) w =
     Some (NivelDeHumedad 1000 humedo) /\
   truthy (start_time_global w) = true /\ 1000 <= 1300) /\
  start_time_global (exec (ConsultarHumedad_handle "regador" clk rq) w) =
    Some 1000%Q.
Proof.
  intros clk rq w.
  assert (Hle : 1000 <= 1300) by discriminate.
  split; [split; [reflexivity | split; [reflexivity | exact Hle]]|].
  destruct (X16_query_with_reading_leaves_start "regador" clk rq w 1000
              humedo eq_refl) as [_ [_ [_ Hkeep]]].
  exact (Hkeep eq_refl Hle).
Defined.

Lemma X17_store_failure_is_silent_witness :
  let clk := readings [1120]%Q in
  let ev := IntentRequest "DesactivarRegadorIntent" in
  let rq := answering (Some 900) in
  let w := started 1000%Q in
  value (lambda_handler "regador" clk ev (with_put_item_ok rq false)) w =
    Some (says (RegadorDesactivado 1000)) /\
  table (exec (lambda_handler "regador" clk ev (with_put_item_ok rq false))
           w) = [].
Proof.
  intros clk ev rq w.
  destruct (X17_store_failure_is_silent "regador" clk ev rq w false)
    as [Hvalue [_ [_ [_ Htable]]]].
  split; [rewrite Hvalue; reflexivity | exact (Htable eq_refl)].
Defined.

